(** * Fortuneo bank connector: the helpers of [src/helpers.js]

    A shallow embedding of the helper module of the connector
    (amount normalisation, account-type resolution, the classification
    walk over [classification.json] and the translation of request
    errors), followed by the properties established about it.

    JavaScript strings are modelled by [string] (one [ascii] per
    character, which is exact on ASCII text), JavaScript numbers by the
    binary64 floats of the kernel, and exceptions by an explicit
    [outcome]. *)

From Stdlib Require Import String Ascii List Bool Arith Lia.
From Stdlib Require Import DecimalString.
From Stdlib Require Import Floats.
Import ListNotations.
Open Scope string_scope.
Open Scope list_scope.

(** ** Values of the language *)

(** The values that [JSON.parse] produces, and [undefined]. The
    property list of an object holds each key once, in insertion
    order. *)
#[warnings="-register-all"]
Inductive value : Type :=
| VUndefined
| VNull
| VBool (b : bool)
| VNum (n : float)
| VStr (s : string)
| VArr (items : list value)
| VObj (props : list (string * value)).

Definition obj : Type := list (string * value).

(** [ToBoolean]: [undefined], [null], [false], [+0], [-0], [NaN] and the
    empty string are falsy, every array and object is truthy. *)
Definition truthy (v : value) : bool :=
  match v with
  | VUndefined | VNull => false
  | VBool b => b
  | VNum n => negb (PrimFloat.eqb n 0%float || negb (PrimFloat.eqb n n))
  | VStr s => negb (String.eqb s "")
  | VArr _ | VObj _ => true
  end.

(** Completion of a call: a normal result, or a thrown exception. *)
Inductive exn : Type :=
| TypeError
| Error (message : string).

Inductive outcome (A : Type) : Type :=
| Ok (a : A)
| Throw (e : exn).
Arguments Ok {A} a.
Arguments Throw {A} e.

Definition obind {A B : Type} (o : outcome A) (k : A -> outcome B) : outcome B :=
  match o with
  | Ok a => k a
  | Throw e => Throw e
  end.

(** ** Property access *)

Fixpoint own_prop (props : obj) (key : string) : value :=
  match props with
  | [] => VUndefined
  | (k, v) :: rest => if String.eqb k key then v else own_prop rest key
  end.

(** The canonical decimal spelling of an index, as property keys of
    arrays and strings are spelt. *)
Definition index_key (i : nat) : string :=
  NilEmpty.string_of_uint (Nat.to_uint i).

Definition index_of_key (len : nat) (key : string) : option nat :=
  find (fun i => String.eqb (index_key i) key) (seq 0 len).

(** [v[key]] on a value that is neither [undefined] nor [null]: the own
    data properties of a parsed JSON value, i.e. the entries of an
    object and the indexed elements of an array or a string. Inherited
    properties are left out: each of them ([length], [constructor],
    [toString], ...) has a lower-case letter in its name and none is
    named [_id], [_proba], [_type], [_credit] or [_debit], while the
    classification walk only ever asks for those five keys and for
    upper-cased words. *)
Definition prop (v : value) (key : string) : value :=
  match v with
  | VObj props => own_prop props key
  | VArr items =>
      match index_of_key (List.length items) key with
      | Some i => nth i items VUndefined
      | None => VUndefined
      end
  | VStr s =>
      match index_of_key (String.length s) key with
      | Some i =>
          match String.get i s with
          | Some c => VStr (String c EmptyString)
          | None => VUndefined
          end
      | None => VUndefined
      end
  | VUndefined | VNull | VBool _ | VNum _ => VUndefined
  end.

(** [v[key]] in general: reading a property of [undefined] or [null]
    throws a [TypeError]. *)
Definition get_prop (v : value) (key : string) : outcome value :=
  match v with
  | VUndefined | VNull => Throw TypeError
  | _ => Ok (prop v key)
  end.

(** [o[key] = v] on a property list: an existing key keeps its place,
    a new key is added at the end. *)
Definition set_prop (props : obj) (key : string) (v : value) : obj :=
  if existsb (fun kv => String.eqb (fst kv) key) props
  then map (fun kv => if String.eqb (fst kv) key then (fst kv, v) else kv) props
  else props ++ [(key, v)].

(** ** String methods *)

Definition is_lower (c : ascii) : bool :=
  ((97 <=? nat_of_ascii c) && (nat_of_ascii c <=? 122))%nat.

Definition upper_char (c : ascii) : ascii :=
  if is_lower c then ascii_of_nat (nat_of_ascii c - 32) else c.

(** [String.prototype.toUpperCase], on ASCII text: the method maps the
    letters a-z to A-Z and leaves every other character below 128 as it
    is, which is what [upper_char] does. The cased letters above 127
    are not modelled, so that the function is that of the language on
    the strings for which [is_ascii] holds. *)
Fixpoint toUpperCase (s : string) : string :=
  match s with
  | EmptyString => EmptyString
  | String c s' => String (upper_char c) (toUpperCase s')
  end.

(** The strings made of characters below 128. *)
Definition is_ascii_char (c : ascii) : bool :=
  (nat_of_ascii c <? 128)%nat.

Fixpoint is_ascii (s : string) : bool :=
  match s with
  | EmptyString => true
  | String c s' => is_ascii_char c && is_ascii s'
  end.

(** The characters of the class [\s] (and of [trim]) below code 128:
    tab, line feed, vertical tab, form feed, carriage return, space. *)
Definition is_space (c : ascii) : bool :=
  let n := nat_of_ascii c in
  (((9 <=? n) && (n <=? 13)) || (n =? 32))%nat.

(** A regular expression made of one character class, with its flags. *)
Record RegExp : Type := {
  source : ascii -> bool;
  flags : string
}.

Fixpoint has_char (c : ascii) (s : string) : bool :=
  match s with
  | EmptyString => false
  | String d s' => Ascii.eqb c d || has_char c s'
  end.

Fixpoint replace_each (cls : ascii -> bool) (replacement : string) (s : string) : string :=
  match s with
  | EmptyString => EmptyString
  | String c s' =>
      if cls c then replacement ++ replace_each cls replacement s'
      else String c (replace_each cls replacement s')
  end.

(** [String.prototype.replaceAll(regexp, replacement)]: the method
    throws a [TypeError] when the flags of the regular expression do
    not contain [g] (step 2.b.iii of its definition in ECMAScript); a
    runtime that predates the method throws a [TypeError] on the call
    all the same. *)
Definition replaceAll (s : string) (re : RegExp) (replacement : string) : outcome string :=
  if has_char "g"%char (flags re)
  then Ok (replace_each (source re) replacement s)
  else Throw TypeError.

(** [String.prototype.replace(pattern, replacement)] with a string
    pattern: the first occurrence is replaced. *)
Fixpoint replace (s : string) (pattern replacement : string) : string :=
  if prefix pattern s
  then replacement ++ substring (String.length pattern) (String.length s) s
  else
    match s with
    | EmptyString => EmptyString
    | String c s' => String c (replace s' pattern replacement)
    end.

Fixpoint trimStart (s : string) : string :=
  match s with
  | EmptyString => EmptyString
  | String c s' => if is_space c then trimStart s' else s
  end.

Fixpoint rev_string (s : string) : string :=
  match s with
  | EmptyString => EmptyString
  | String c s' => rev_string s' ++ String c EmptyString
  end.

(** [String.prototype.trim]. *)
Definition trim (s : string) : string :=
  rev_string (trimStart (rev_string (trimStart s))).

(** [String.prototype.split(separator)] with a one-character
    separator: the result always has at least one element. *)
Fixpoint split (s : string) (separator : ascii) : list string :=
  match s with
  | EmptyString => [EmptyString]
  | String c s' =>
      if Ascii.eqb c separator then EmptyString :: split s' separator
      else
        match split s' separator with
        | [] => [String c EmptyString]
        | first :: others => String c first :: others
        end
  end.

(** ** Constants *)

(** The mutable objects of the module. There is one: the object bound
    to the constant [defaultMedataOperation]. *)
Inductive ref : Type :=
| defaultMedataOperation.

(** The contents of [defaultMedataOperation] when the module is loaded. *)
Definition defaultMedataOperation_init : obj :=
  [ ("_id", VStr "0"); ("_proba", VNum 0%float); ("_type", VStr "none") ].

(** The [parse] member of a balance recipe is a reference to a function
    of this module. *)
Inductive parser : Type :=
| parse_normalizeAmount.

Record ScrapeOptions : Type := {
  opts_sel : string;
  parse : parser
}.

Record Scrape : Type := {
  sel : string;
  opts : ScrapeOptions
}.

Record AccountTypeDescriptor : Type := {
  id : nat;
  type : string;
  scrape4Balance : option Scrape
}.

Module AccountType.

Definition UNKNOWN : AccountTypeDescriptor :=
  {| id := 0; type := "Unknown"; scrape4Balance := None |}.

Definition CHECKINGS : AccountTypeDescriptor :=
  {| id := 1; type := "Checkings";
     scrape4Balance := Some
       {| sel := "#tableauConsultationHisto";
          opts := {| opts_sel := "td>strong"; parse := parse_normalizeAmount |} |} |}.

Definition CREDITCARD : AccountTypeDescriptor :=
  {| id := 2; type := "CreditCard";
     scrape4Balance := Some
       {| sel := "#tableauConsultationHisto";
          opts := {| opts_sel := "td>a>strong"; parse := parse_normalizeAmount |} |} |}.

Definition SAVINGS : AccountTypeDescriptor :=
  {| id := 3; type := "Savings";
     scrape4Balance := Some
       {| sel := "div.synthese_livret_cat a";
          opts := {| opts_sel := "p.synthese_data_line_right_text";
                     parse := parse_normalizeAmount |} |} |}.

Definition MARKET : AccountTypeDescriptor :=
  {| id := 4; type := "Market";
     scrape4Balance := Some
       {| sel := "#valorisation_compte>table>tbody>tr";
          opts := {| opts_sel := "td.gras"; parse := parse_normalizeAmount |} |} |}.

Definition LIFEINSURANCE : AccountTypeDescriptor :=
  {| id := 5; type := "LifeInsurance";
     scrape4Balance := Some
       {| sel := "div.synthese_vie>div>div.colonne_gauche>div>p>span";
          opts := {| opts_sel := "strong"; parse := parse_normalizeAmount |} |} |}.

End AccountType.

Definition AbbrToAccountType : list (string * AccountTypeDescriptor) :=
  [ ("cco", AccountType.CHECKINGS);
    ("esp", AccountType.CHECKINGS);
    ("liv_a", AccountType.SAVINGS);
    ("liv_d", AccountType.SAVINGS);
    ("liv_p", AccountType.SAVINGS);
    ("ord", AccountType.MARKET);
    ("pea", AccountType.MARKET);
    ("vie", AccountType.LIFEINSURANCE) ].

(** The names that every object inherits from [Object.prototype]. Each
    of them is bound to a built-in function, and [__proto__] to the
    prototype object itself, so the value found under any of them is
    truthy. *)
Definition Object_prototype : list string :=
  [ "constructor"; "hasOwnProperty"; "isPrototypeOf"; "propertyIsEnumerable";
    "toLocaleString"; "toString"; "valueOf"; "__proto__";
    "__defineGetter__"; "__defineSetter__"; "__lookupGetter__"; "__lookupSetter__" ].

(** What [AbbrToAccountType[key]] evaluates to: a descriptor of the
    table, a member inherited from [Object.prototype], or [undefined]. *)
Inductive member : Type :=
| Descriptor (d : AccountTypeDescriptor)
| Inherited (name : string)
| Missing.

Fixpoint table_lookup (table : list (string * AccountTypeDescriptor)) (key : string)
  : option AccountTypeDescriptor :=
  match table with
  | [] => None
  | (k, d) :: rest => if String.eqb k key then Some d else table_lookup rest key
  end.

Definition AbbrToAccountType_get (key : string) : member :=
  match table_lookup AbbrToAccountType key with
  | Some d => Descriptor d
  | None =>
      if existsb (String.eqb key) Object_prototype then Inherited key else Missing
  end.

(** [a || b] where [a] is a [member]: only [undefined] is falsy. *)
Definition member_or (a b : member) : member :=
  match a with
  | Missing => b
  | _ => a
  end.

(** ** Public functions *)

Section NormalizeAmount.

(** The global [parseFloat] of the runtime. *)
Variable parseFloat : string -> float.

Definition normalizeAmount (amount : string) : outcome float :=
  obind (replaceAll amount {| source := is_space; flags := "" |} "")
    (fun stripped => Ok (parseFloat (trim (replace stripped "," ".")))).

End NormalizeAmount.

Definition getAccountTypeFromCSS (cssClasses : string) : member :=
  let cssClass := split cssClasses " "%char in
  (* Keep only the first class: e.g. 'cco compte' -> 'cco' *)
  member_or (AbbrToAccountType_get (hd "undefined" cssClass))
            (Descriptor AccountType.UNKNOWN).

(** ** The state of the module *)

(** The heap holds the contents of the one mutable object,
    [defaultMedataOperation]. A computation runs on a heap and leaves a
    heap, whether it returns or throws. *)
Definition heap : Type := obj.

Definition M (A : Type) : Type := heap -> outcome A * heap.

Definition ret {A : Type} (a : A) : M A := fun h => (Ok a, h).

Definition bind {A B : Type} (m : M A) (k : A -> M B) : M B :=
  fun h =>
    match m h with
    | (Ok a, h') => k a h'
    | (Throw e, h') => (Throw e, h')
    end.

Definition throw {A : Type} (e : exn) : M A := fun h => (Throw e, h).

Definition lift {A : Type} (o : outcome A) : M A := fun h => (o, h).

Declare Scope js_scope.
Delimit Scope js_scope with js.
Notation "x <- m ;; k" := (bind m (fun x => k))
  (at level 61, m at next level, right associativity) : js_scope.
Notation "m ;; k" := (bind m (fun _ => k))
  (at level 61, right associativity) : js_scope.
Open Scope js_scope.

(** [Object.keys(r)] and [r[key] = v] on a mutable object. *)
Definition keys (r : ref) : M (list string) :=
  fun h => (Ok (map fst h), h).

Definition store (r : ref) (key : string) (v : value) : M unit :=
  fun h => (Ok tt, set_prop h key v).

(** [array.forEach(f)]. *)
Fixpoint forEach {A : Type} (array : list A) (f : A -> M unit) : M unit :=
  match array with
  | [] => ret tt
  | x :: rest => f x ;; forEach rest f
  end.

(** [array.slice(index)]. *)
Definition slice {A : Type} (array : list A) (index : nat) : list A :=
  skipn index array.

(** What a classification call hands back: nothing ([undefined]), or a
    reference to a mutable object. *)
Inductive returned : Type :=
| Undefined
| Object (r : ref).

(** ** Private functions *)

Definition _readDefaultMetaData (treeMetadata : value) (metadata : ref) : M unit :=
  ks <- keys metadata ;;
  forEach ks (fun key =>
    v <- lift (get_prop treeMetadata key) ;;
    if truthy v then store metadata key v else ret tt).

Definition _readSpecificMetaData (treeMetadata : value) (typeOperation : string)
    (metadata : ref) : M ref :=
  _readDefaultMetaData treeMetadata metadata ;;
  sub <- lift (get_prop treeMetadata typeOperation) ;;
  (if truthy sub then _readDefaultMetaData sub metadata else ret tt) ;;
  ret metadata.

Section Classification.

(** The contents of [classification.json], an object keyed by
    upper-cased words. The file is data of the deployment; every
    result below holds for any contents. *)
Variable classification : obj.

(** The [for ... of] loop of [_classification]: a word that names no
    child returns [metadata]; when the words are used up the loop
    ends, and so does the body of the function, with no [return]. *)
Fixpoint for_of (fnReadMetadata : value -> ref -> M ref) (metadata : ref)
    (treeActive : value) (words : list string) : M returned :=
  match words with
  | [] => ret Undefined
  | word :: rest =>
      tree <- lift (get_prop treeActive (toUpperCase word)) ;;
      if negb (truthy tree) then ret (Object metadata)
      else
        fnReadMetadata tree metadata ;;
        for_of fnReadMetadata metadata tree rest
  end.

Definition _classification (words : list string) (metadata : ref)
    (fnReadMetadata : value -> ref -> M ref) : M returned :=
  match words with
  | [] => throw TypeError (* words[0] is undefined: no toUpperCase *)
  | first :: _ =>
      treeActive <- lift (get_prop (VObj classification) (toUpperCase first)) ;;
      if negb (truthy treeActive) then ret (Object metadata)
      else
        let index := if String.eqb first "CARTE" then 2 else 1 in
        fnReadMetadata treeActive metadata ;;
        for_of fnReadMetadata metadata treeActive (slice words index)
  end.

Definition findMetadataForCreditOperation (words : list string) : M returned :=
  _classification words defaultMedataOperation
    (fun tree metadata => _readSpecificMetaData tree "_credit" metadata).

Definition findMetadataForDebitOperation (words : list string) : M returned :=
  _classification words defaultMedataOperation
    (fun tree metadata => _readSpecificMetaData tree "_debit" metadata).

End Classification.

(** ** Request errors *)

(** The classes an error object can be an instance of: [Error], the
    three classes of [request-promise/errors], and any other. *)
Inductive error_class : Type :=
| ErrorClass
| RequestError
| StatusCodeError
| TransformError
| OtherClass (name : string).

Definition error_class_eqb (a b : error_class) : bool :=
  match a, b with
  | ErrorClass, ErrorClass => true
  | RequestError, RequestError => true
  | StatusCodeError, StatusCodeError => true
  | TransformError, TransformError => true
  | OtherClass n, OtherClass m => String.eqb n m
  | _, _ => false
  end.

(** A value that is thrown or rejected: an object, known by its
    identity and by the classes on its prototype chain, or a value that
    is not an object. *)
Inductive thrown : Type :=
| ErrorObject (identity : nat) (chain : list error_class) (message : string)
| NotAnObject (v : value).

Definition instanceof (err : thrown) (class : error_class) : bool :=
  match err with
  | ErrorObject _ chain _ => existsb (error_class_eqb class) chain
  | NotAnObject _ => false
  end.

(** [errors.VENDOR_DOWN] of cozy-konnector-libs. *)
Definition VENDOR_DOWN : string := "VENDOR_DOWN".

(** How [handleRequestErrors] completes: it throws the [Error] it has
    just built, or it returns a promise rejected with a value. *)
Inductive completion : Type :=
| Throws (e : exn)
| ReturnsRejected (reason : thrown).

(** The function, with the lines it hands to [log]. *)
Definition handleRequestErrors (err : thrown) : list (string * thrown) * completion :=
  if instanceof err RequestError || instanceof err StatusCodeError
  then ([("error", err)], Throws (Error VENDOR_DOWN))
  else ([], ReturnsRejected err).

(** ** Notions used in the statements *)

Definition has_key (props : obj) (key : string) : bool :=
  existsb (fun kv => String.eqb (fst kv) key) props.

(** The effect of one [_readDefaultMetaData] on the accumulator, entry
    by entry: a truthy field of the node replaces the value held. *)
Definition overwrite (treeMetadata : value) (h : heap) : heap :=
  map (fun kv =>
         if truthy (prop treeMetadata (fst kv))
         then (fst kv, prop treeMetadata (fst kv))
         else kv) h.

(** The words [words] all name a child, one below the other, from
    [node] down. *)
Fixpoint matches_path (node : value) (words : list string) : bool :=
  match words with
  | [] => true
  | word :: rest =>
      truthy (prop node (toUpperCase word))
      && matches_path (prop node (toUpperCase word)) rest
  end.

Section Walk.

Variable classification : obj.

(** The walk uses up every word: the first one names a root and each
    word from the start index on names a child of the node reached. *)
Definition walk_consumes_all (words : list string) : bool :=
  match words with
  | [] => false
  | first :: _ =>
      let root := own_prop classification (toUpperCase first) in
      truthy root
      && matches_path root
           (slice words (if String.eqb first "CARTE" then 2 else 1))
  end.

(** The walk that takes the root named [root_key] and then matches
    [children] against the nodes below it. *)
Definition walk_below (root_key : string) (children : list string)
    (metadata : ref) (fnReadMetadata : value -> ref -> M ref) : M returned :=
  treeActive <- lift (get_prop (VObj classification) root_key) ;;
  if negb (truthy treeActive) then ret (Object metadata)
  else
    fnReadMetadata treeActive metadata ;;
    for_of fnReadMetadata metadata treeActive children.

End Walk.

(** The body of the [forEach] of [_readDefaultMetaData]. *)
Definition read_key (treeMetadata : value) (metadata : ref) (key : string) : M unit :=
  v <- lift (get_prop treeMetadata key) ;;
  if truthy v then store metadata key v else ret tt.

(** [overwrite], restricted to the keys of [ks]. *)
Definition overwrite_keys (treeMetadata : value) (ks : list string) (h : heap) : heap :=
  map (fun kv =>
         if existsb (String.eqb (fst kv)) ks && truthy (prop treeMetadata (fst kv))
         then (fst kv, prop treeMetadata (fst kv))
         else kv) h.

(** The reader that the entry point of a polarity hands to
    [_classification]. *)
Definition reader (typeOperation : string) : value -> ref -> M ref :=
  fun tree metadata => _readSpecificMetaData tree typeOperation metadata.

(** What the loop hands back and the accumulator it leaves, computed
    without the monad. *)
Fixpoint loop_run (op : string) (node : value) (words : list string) (h : heap)
  : returned * heap :=
  match words with
  | [] => (Undefined, h)
  | word :: rest =>
      let tree := prop node (toUpperCase word) in
      if truthy tree
      then loop_run op tree rest (overwrite (prop tree op) (overwrite tree h))
      else (Object defaultMedataOperation, h)
  end.

(** A classification call, computed without the monad, for a list of
    words that is not empty. *)
Definition classification_run (classification : obj) (op : string)
    (first : string) (others : list string) (h : heap) : returned * heap :=
  let root := own_prop classification (toUpperCase first) in
  if truthy root
  then loop_run op root
         (slice (first :: others) (if String.eqb first "CARTE" then 2 else 1))
         (overwrite (prop root op) (overwrite root h))
  else (Object defaultMedataOperation, h).

(** An accumulator in which the keys that [c] binds hold the value
    bound. *)
Definition patch (c : string -> option value) (h : heap) : heap :=
  map (fun kv => match c (fst kv) with
                 | Some v => (fst kv, v)
                 | None => kv
                 end) h.

Definition truthy_fields (node : value) (key : string) : option value :=
  if truthy (prop node key) then Some (prop node key) else None.

Definition patch_then (c1 c2 : string -> option value) (key : string) : option value :=
  match c2 key with
  | Some v => Some v
  | None => c1 key
  end.

(** The nodes that the loop reaches from [node] down, in the order of
    the walk, up to the first word that names no child. *)
Fixpoint path_nodes (node : value) (words : list string) : list value :=
  match words with
  | [] => []
  | word :: rest =>
      let tree := prop node (toUpperCase word) in
      if truthy tree then tree :: path_nodes tree rest else []
  end.

(** The nodes whose metadata a classification call reads: the root that
    the first word names, then the nodes of the loop. *)
Definition visited_nodes (classification : obj) (words : list string) : list value :=
  match words with
  | [] => []
  | first :: _ =>
      let root := own_prop classification (toUpperCase first) in
      if truthy root
      then root :: path_nodes root
                     (slice words (if String.eqb first "CARTE" then 2 else 1))
      else []
  end.

(** What one node makes of the value [held] under [key]: the field of
    its sub-record for the polarity when truthy, else its own field
    when truthy, else [held]. *)
Definition field_read (op : string) (node : value) (key : string) (held : value)
  : value :=
  if truthy (prop (prop node op) key) then prop (prop node op) key
  else if truthy (prop node key) then prop node key
  else held.

(** [field_read] through a list of nodes, the first node first. *)
Fixpoint fields_along (op : string) (nodes : list value) (key : string)
    (held : value) : value :=
  match nodes with
  | [] => held
  | node :: rest => fields_along op rest key (field_read op node key held)
  end.

(** The accumulator after a sequence of classification calls on one
    module, each call a polarity ([true] for credit, [false] for debit)
    with its words. *)
Fixpoint after_calls (classification : obj) (calls : list (bool * list string))
    (h : heap) : heap :=
  match calls with
  | [] => h
  | (credit, words) :: rest =>
      after_calls classification rest
        (snd (if credit
              then findMetadataForCreditOperation classification words h
              else findMetadataForDebitOperation classification words h))
  end.

(** Modelled from the spec: [classification.json], the rule tree, is
    data that the sources do not hold. The tree of the examples is the
    one of the specification: a root [VIR] with the default [_id] '5'
    and a [_credit] override of [_proba] to 90, and a root [CARTE] with
    the children [1234] and [RESTAURANT]. *)
Definition example_tree : obj :=
  [ ("VIR", VObj [ ("_id", VStr "5");
                   ("_credit", VObj [ ("_proba", VNum 90%float) ]) ]);
    ("CARTE", VObj [ ("_id", VStr "1");
                     ("1234", VObj [ ("_id", VStr "7"); ("_type", VStr "number") ]);
                     ("RESTAURANT", VObj [ ("_id", VStr "3");
                                           ("_proba", VNum 80%float) ]) ]) ].

(** ** Property access and the accumulator *)

Lemma get_prop_truthy (v : value) (key : string) :
  truthy v = true -> get_prop v key = Ok (prop v key).
Proof. destruct v; simpl; intros H; try reflexivity; discriminate. Qed.

Lemma prop_of_falsy (v : value) (key : string) :
  truthy v = false -> prop v key = VUndefined.
Proof.
  destruct v; simpl; intros H; try reflexivity; try discriminate.
  apply negb_false_iff, String.eqb_eq in H. subst s. reflexivity.
Qed.

Lemma overwrite_falsy (v : value) (h : heap) :
  truthy v = false -> overwrite v h = h.
Proof.
  intros H. unfold overwrite.
  rewrite <- (map_id h) at 2. apply map_ext. intros kv.
  rewrite (prop_of_falsy v _ H). reflexivity.
Qed.

Lemma has_key_overwrite (v : value) (h : heap) (key : string) :
  has_key (overwrite v h) key = has_key h key.
Proof.
  unfold has_key, overwrite. induction h as [|kv h IH]; simpl; [reflexivity|].
  rewrite IH. destruct (truthy (prop v (fst kv))); reflexivity.
Qed.

Lemma own_prop_no_key (h : obj) (key : string) :
  has_key h key = false -> own_prop h key = VUndefined.
Proof.
  unfold has_key. induction h as [|[k v] h IH]; simpl; [reflexivity|].
  destruct (String.eqb k key); simpl; [discriminate|exact IH].
Qed.

Lemma own_prop_overwrite (v : value) (h : heap) (key : string) :
  has_key h key = true ->
  own_prop (overwrite v h) key =
    if truthy (prop v key) then prop v key else own_prop h key.
Proof.
  unfold has_key, overwrite. induction h as [|[k x] h IH]; simpl; [discriminate|].
  destruct (String.eqb k key) eqn:E; simpl.
  - apply String.eqb_eq in E. subst k. intros _.
    destruct (truthy (prop v key)); simpl; rewrite String.eqb_refl; reflexivity.
  - intros H. destruct (truthy (prop v k)); simpl; rewrite E; apply IH, H.
Qed.

Lemma own_prop_overwrite_cases (v : value) (h : heap) (key : string) :
  own_prop (overwrite v h) key = own_prop h key
  \/ (own_prop (overwrite v h) key = prop v key /\ truthy (prop v key) = true).
Proof.
  destruct (has_key h key) eqn:K.
  - rewrite (own_prop_overwrite v h key K).
    destruct (truthy (prop v key)) eqn:T; [right; split; reflexivity | left; reflexivity].
  - left. rewrite !own_prop_no_key; [reflexivity | exact K |].
    rewrite has_key_overwrite. exact K.
Qed.

(** ** Reading the metadata of a node *)

Lemma has_key_set_prop (h : heap) (key key' : string) (v : value) :
  has_key h key = true -> has_key (set_prop h key v) key' = has_key h key'.
Proof.
  unfold set_prop, has_key. intros ->.
  induction h as [|kv h IH]; simpl; [reflexivity|].
  rewrite IH. destruct (String.eqb (fst kv) key); reflexivity.
Qed.

Lemma forEach_read_key (t : value) (ks : list string) :
  (forall k, get_prop t k = Ok (prop t k)) ->
  forall h : heap,
    (forall k, In k ks -> has_key h k = true) ->
    forEach ks (read_key t defaultMedataOperation) h = (Ok tt, overwrite_keys t ks h).
Proof.
  intros T. induction ks as [|k ks IH]; intros h Hk.
  - simpl. unfold ret, overwrite_keys. f_equal.
    rewrite <- (map_id h) at 1. apply map_ext. intros kv. reflexivity.
  - assert (Kh : has_key h k = true) by (apply Hk; left; reflexivity).
    cbn [forEach]. unfold bind at 1. unfold read_key at 1.
    unfold bind at 1. unfold lift at 1. rewrite (T k).
    destruct (truthy (prop t k)) eqn:V.
    + unfold store. rewrite IH.
      * f_equal. unfold overwrite_keys, set_prop. fold (has_key h k). rewrite Kh.
        rewrite map_map. apply map_ext. intros kv. cbn [existsb].
        destruct (String.eqb (fst kv) k) eqn:E; cbn [fst snd orb].
        -- apply String.eqb_eq in E. rewrite E, V.
           destruct (existsb (String.eqb k) ks); reflexivity.
        -- reflexivity.
      * intros k' Hin. rewrite (has_key_set_prop h k k' _ Kh).
        apply Hk. right. exact Hin.
    + unfold ret. rewrite IH.
      * f_equal. unfold overwrite_keys. apply map_ext. intros kv. cbn [existsb].
        destruct (String.eqb (fst kv) k) eqn:E; cbn [orb]; [|reflexivity].
        apply String.eqb_eq in E. rewrite E, V, andb_false_r. reflexivity.
      * intros k' Hin. apply Hk. right. exact Hin.
Qed.

Lemma has_key_in (h : heap) (k : string) :
  In k (map fst h) -> has_key h k = true.
Proof.
  unfold has_key. intros H. apply in_map_iff in H. destruct H as [kv [E Hin]].
  apply existsb_exists. exists kv. split; [exact Hin|].
  rewrite E. apply String.eqb_refl.
Qed.

Lemma overwrite_keys_all (t : value) (h : heap) :
  overwrite_keys t (map fst h) h = overwrite t h.
Proof.
  unfold overwrite_keys, overwrite. apply map_ext_in. intros kv Hin.
  assert (E : existsb (String.eqb (fst kv)) (map fst h) = true).
  { apply existsb_exists. exists (fst kv). split.
    - apply in_map. exact Hin.
    - apply String.eqb_refl. }
  rewrite E. reflexivity.
Qed.

Lemma _readDefaultMetaData_readable (t : value) (h : heap) :
  (forall k, get_prop t k = Ok (prop t k)) ->
  _readDefaultMetaData t defaultMedataOperation h = (Ok tt, overwrite t h).
Proof.
  intros T. unfold _readDefaultMetaData, bind at 1, keys.
  change (fun key => v <- lift (get_prop t key) ;;
                     (if truthy v then store defaultMedataOperation key v else ret tt))
    with (read_key t defaultMedataOperation).
  rewrite (forEach_read_key t (map fst h) T h).
  - rewrite overwrite_keys_all. reflexivity.
  - intros k. apply has_key_in.
Qed.

(** On a node that is truthy, [_readDefaultMetaData] returns and leaves
    the accumulator overwritten entry by entry. *)
Lemma _readDefaultMetaData_ok (t : value) (h : heap) :
  truthy t = true ->
  _readDefaultMetaData t defaultMedataOperation h = (Ok tt, overwrite t h).
Proof.
  intros T. apply _readDefaultMetaData_readable.
  intros k. apply get_prop_truthy, T.
Qed.

Lemma forEach_throws (t : value) (ks : list string) (h : heap) :
  (forall k, get_prop t k = Throw TypeError) ->
  snd (forEach ks (read_key t defaultMedataOperation) h) = h.
Proof.
  intros G. destruct ks as [|k ks]; [reflexivity|].
  cbn [forEach]. unfold bind at 1, read_key at 1, bind at 1, lift at 1.
  rewrite G. reflexivity.
Qed.

(** Whatever the node, the accumulator that [_readDefaultMetaData]
    leaves is the one overwritten entry by entry. *)
Lemma _readDefaultMetaData_heap (t : value) (h : heap) :
  snd (_readDefaultMetaData t defaultMedataOperation h) = overwrite t h.
Proof.
  destruct t;
    try (rewrite _readDefaultMetaData_readable; [reflexivity | intros k; reflexivity]).
  all: rewrite overwrite_falsy by reflexivity.
  all: unfold _readDefaultMetaData, bind at 1, keys.
  all: apply (forEach_throws _ (map fst h) h); intros k; reflexivity.
Qed.

(** [_readSpecificMetaData] on a truthy node: the defaults of the node
    first, the fields of its sub-record for the polarity next. *)
Lemma _readSpecificMetaData_ok (t : value) (op : string) (h : heap) :
  truthy t = true ->
  _readSpecificMetaData t op defaultMedataOperation h =
    (Ok defaultMedataOperation, overwrite (prop t op) (overwrite t h)).
Proof.
  intros T. unfold _readSpecificMetaData.
  unfold bind at 1. rewrite (_readDefaultMetaData_ok t h T).
  unfold bind at 1, lift at 1. rewrite (get_prop_truthy t op T).
  unfold bind at 1.
  destruct (truthy (prop t op)) eqn:S.
  - rewrite (_readDefaultMetaData_ok _ _ S). reflexivity.
  - rewrite (overwrite_falsy _ _ S). reflexivity.
Qed.

(** ** The walk *)

Lemma for_of_run (op : string) (words : list string) :
  forall (node : value) (h : heap),
    truthy node = true ->
    for_of (reader op) defaultMedataOperation node words h =
      (Ok (fst (loop_run op node words h)), snd (loop_run op node words h)).
Proof.
  induction words as [|word rest IH]; intros node h T; [reflexivity|].
  cbn [for_of loop_run]. unfold bind at 1, lift at 1.
  rewrite (get_prop_truthy node _ T).
  destruct (truthy (prop node (toUpperCase word))) eqn:C; cbn [negb].
  - unfold bind at 1, reader at 1.
    rewrite (_readSpecificMetaData_ok _ op h C). apply IH, C.
  - reflexivity.
Qed.

Lemma _classification_run (classification : obj) (op : string)
    (first : string) (others : list string) (h : heap) :
  _classification classification (first :: others) defaultMedataOperation (reader op) h =
    (Ok (fst (classification_run classification op first others h)),
     snd (classification_run classification op first others h)).
Proof.
  unfold _classification, classification_run.
  unfold bind at 1, lift at 1. cbn [get_prop prop].
  destruct (truthy (own_prop classification (toUpperCase first))) eqn:R; cbn [negb].
  - unfold bind at 1, reader at 1.
    rewrite (_readSpecificMetaData_ok _ op h R). apply for_of_run, R.
  - reflexivity.
Qed.

Lemma loop_run_exhausted (op : string) (words : list string) :
  forall (node : value) (h : heap),
    matches_path node words = true -> fst (loop_run op node words h) = Undefined.
Proof.
  induction words as [|word rest IH]; intros node h P; [reflexivity|].
  cbn [matches_path] in P. apply andb_prop in P. destruct P as [C P].
  cbn [loop_run]. rewrite C. apply IH, P.
Qed.

Lemma loop_run_stopped (op : string) (words : list string) :
  forall (node : value) (h : heap),
    matches_path node words = false ->
    fst (loop_run op node words h) = Object defaultMedataOperation.
Proof.
  induction words as [|word rest IH]; intros node h P; [discriminate|].
  cbn [matches_path] in P. cbn [loop_run].
  destruct (truthy (prop node (toUpperCase word))) eqn:C; [|reflexivity].
  apply IH. exact P.
Qed.

(** ** The fields that a walk leaves *)

Lemma own_prop_read (op : string) (node : value) (h : heap) (key : string) :
  has_key h key = true ->
  own_prop (overwrite (prop node op) (overwrite node h)) key
  = field_read op node key (own_prop h key).
Proof.
  intros K. unfold field_read.
  rewrite own_prop_overwrite by (rewrite has_key_overwrite; exact K).
  rewrite (own_prop_overwrite node h key K). reflexivity.
Qed.

Lemma has_key_read (op : string) (node : value) (h : heap) (key : string) :
  has_key (overwrite (prop node op) (overwrite node h)) key = has_key h key.
Proof. rewrite !has_key_overwrite. reflexivity. Qed.

Lemma own_prop_loop_run (op : string) (key : string) (words : list string) :
  forall (node : value) (h : heap),
    has_key h key = true ->
    own_prop (snd (loop_run op node words h)) key
    = fields_along op (path_nodes node words) key (own_prop h key).
Proof.
  induction words as [|word rest IH]; intros node h K; [reflexivity|].
  cbn [loop_run path_nodes].
  destruct (truthy (prop node (toUpperCase word))); [|reflexivity].
  cbn [fields_along]. rewrite IH by (rewrite has_key_read; exact K).
  rewrite (own_prop_read op _ h key K). reflexivity.
Qed.

Lemma own_prop_classification_run (classification : obj) (op key first : string)
    (others : list string) (h : heap) :
  has_key h key = true ->
  own_prop (snd (classification_run classification op first others h)) key
  = fields_along op (visited_nodes classification (first :: others)) key
      (own_prop h key).
Proof.
  intros K. unfold classification_run, visited_nodes.
  destruct (truthy (own_prop classification (toUpperCase first))); [|reflexivity].
  cbn [fields_along]. rewrite own_prop_loop_run by (rewrite has_key_read; exact K).
  rewrite (own_prop_read op _ h key K). reflexivity.
Qed.

Lemma classification_field (classification : obj) (op : string)
    (words : list string) (h : heap) (key : string) :
  has_key h key = true ->
  own_prop (snd (_classification classification words defaultMedataOperation
                   (reader op) h)) key
  = fields_along op (visited_nodes classification words) key (own_prop h key).
Proof.
  intros K. destruct words as [|first others]; [reflexivity|].
  rewrite _classification_run. cbn [snd].
  apply own_prop_classification_run, K.
Qed.

(** ** Results on the classification entry points *)

(** Both entry points are [_classification] with the reader of their
    polarity; their calls are rewritten to [classification_run]. *)
Ltac entry_points_run :=
  unfold findMetadataForCreditOperation, findMetadataForDebitOperation;
  change (fun tree metadata => _readSpecificMetaData tree "_credit" metadata)
    with (reader "_credit");
  change (fun tree metadata => _readSpecificMetaData tree "_debit" metadata)
    with (reader "_debit");
  rewrite !_classification_run.

(** Neither entry point throws on a list of words that is not empty,
    whatever the rule tree and the state of the accumulator. *)
Lemma classification_never_throws (classification : obj) (words : list string) (h : heap) :
  words <> [] ->
  (exists r h', findMetadataForCreditOperation classification words h = (Ok r, h'))
  /\ (exists r h', findMetadataForDebitOperation classification words h = (Ok r, h')).
Proof.
  intros N. destruct words as [|first others]; [contradiction|].
  split; eexists; eexists; apply _classification_run.
Qed.

(** A word that names no child ends the walk with the accumulator as
    the value returned. *)
Lemma stopped_walk_returns_metadata (classification : obj) (words : list string) (h : heap) :
  words <> [] ->
  walk_consumes_all classification words = false ->
  fst (findMetadataForCreditOperation classification words h)
    = Ok (Object defaultMedataOperation)
  /\ fst (findMetadataForDebitOperation classification words h)
    = Ok (Object defaultMedataOperation).
Proof.
  intros N W. destruct words as [|first others]; [contradiction|].
  entry_points_run. cbn [fst].
  unfold walk_consumes_all in W. unfold classification_run.
  destruct (truthy (own_prop classification (toUpperCase first))) eqn:R;
    cbn [andb] in W; [|split; reflexivity].
  split; f_equal; apply loop_run_stopped; exact W.
Qed.

(** C1. A walk that uses up every word -- the first word names a root
    and every word from the start index on names a child of the node
    reached -- makes [findMetadataForCreditOperation] and
    [findMetadataForDebitOperation] return [undefined]: the loop of
    [_classification] ends and the function has no [return] after it.
    The accumulated metadata is left in the shared object and is not
    the value returned. *)
Theorem C1_exhausted_walk_returns_undefined
    (classification : obj) (words : list string) (h : heap) :
  walk_consumes_all classification words = true ->
  fst (findMetadataForCreditOperation classification words h) = Ok Undefined
  /\ fst (findMetadataForDebitOperation classification words h) = Ok Undefined.
Proof.
  intros W. destruct words as [|first others]; [discriminate|].
  entry_points_run. cbn [fst].
  unfold walk_consumes_all in W. apply andb_prop in W. destruct W as [R P].
  unfold classification_run. rewrite R.
  split; f_equal; apply loop_run_exhausted; exact P.
Qed.

Lemma C1_exhausted_walk_witness :
  walk_consumes_all example_tree ["VIR"] = true
  /\ fst (findMetadataForCreditOperation example_tree ["VIR"] defaultMedataOperation_init)
       = Ok Undefined
  /\ fst (findMetadataForDebitOperation example_tree ["VIR"] defaultMedataOperation_init)
       = Ok Undefined.
Proof.
  split; [reflexivity|].
  apply (C1_exhausted_walk_returns_undefined example_tree ["VIR"]
           defaultMedataOperation_init).
  reflexivity.
Defined.

(** C3. The accumulator is the object [defaultMedataOperation] itself,
    which every call overwrites in place, so a call sees what earlier
    calls left. On the example tree, a word that names no root gives
    the defaults on a module just loaded, and the metadata of [VIR]
    with the credit override once a credit [VIR] has been classified;
    debit [VIR SALAIRE] gives the probability 0 at first and 90 when a
    credit classification of the same words came in between. *)
Theorem C3_accumulator_is_shared_between_calls :
  findMetadataForDebitOperation example_tree ["XYZ"] defaultMedataOperation_init
    = (Ok (Object defaultMedataOperation),
       [ ("_id", VStr "0"); ("_proba", VNum 0%float); ("_type", VStr "none") ])
  /\ findMetadataForDebitOperation example_tree ["XYZ"]
       (snd (findMetadataForCreditOperation example_tree ["VIR"; "SALAIRE"]
               defaultMedataOperation_init))
    = (Ok (Object defaultMedataOperation),
       [ ("_id", VStr "5"); ("_proba", VNum 90%float); ("_type", VStr "none") ])
  /\ findMetadataForDebitOperation example_tree ["VIR"; "SALAIRE"]
       defaultMedataOperation_init
    = (Ok (Object defaultMedataOperation),
       [ ("_id", VStr "5"); ("_proba", VNum 0%float); ("_type", VStr "none") ])
  /\ findMetadataForDebitOperation example_tree ["VIR"; "SALAIRE"]
       (snd (findMetadataForCreditOperation example_tree ["VIR"; "SALAIRE"]
               (snd (findMetadataForDebitOperation example_tree ["VIR"; "SALAIRE"]
                       defaultMedataOperation_init))))
    = (Ok (Object defaultMedataOperation),
       [ ("_id", VStr "5"); ("_proba", VNum 90%float); ("_type", VStr "none") ]).
Proof. repeat split; reflexivity. Qed.

(** C5. When the first word is "CARTE" the loop runs over the words
    from index 2 on, below the root [CARTE]; for any other first word
    it runs over the words from index 1 on, below the root that the
    upper-cased word names. The word at index 1 after "CARTE" has no
    part in the result: on the example tree, where [CARTE] has the
    children [1234] and [RESTAURANT], the words CARTE 1234 RESTAURANT
    leave the metadata of [RESTAURANT] and nothing of [1234]. *)
Theorem C5_carte_skips_the_word_at_index_1 :
  (forall classification fnReadMetadata metadata others h,
      _classification classification ("CARTE" :: others) metadata fnReadMetadata h
      = walk_below classification "CARTE" (slice others 1) metadata fnReadMetadata h)
  /\ (forall classification fnReadMetadata metadata first others h,
         first <> "CARTE" ->
         _classification classification (first :: others) metadata fnReadMetadata h
         = walk_below classification (toUpperCase first) others metadata fnReadMetadata h)
  /\ (forall classification fnReadMetadata metadata skipped skipped' others h,
         _classification classification ("CARTE" :: skipped :: others) metadata
           fnReadMetadata h
         = _classification classification ("CARTE" :: skipped' :: others) metadata
             fnReadMetadata h)
  /\ snd (findMetadataForDebitOperation example_tree ["CARTE"; "1234"; "RESTAURANT"]
            defaultMedataOperation_init)
     = [ ("_id", VStr "3"); ("_proba", VNum 80%float); ("_type", VStr "none") ].
Proof.
  split; [|split; [|split]].
  - intros. reflexivity.
  - intros classification fnReadMetadata metadata first others h N.
    unfold _classification, walk_below.
    destruct (String.eqb first "CARTE") eqn:E.
    + apply String.eqb_eq in E. contradiction.
    + reflexivity.
  - intros. reflexivity.
  - reflexivity.
Qed.

Lemma C5_carte_skips_witness :
  "VIR" <> "CARTE"
  /\ _classification example_tree ["VIR"; "SALAIRE"] defaultMedataOperation
       (reader "_credit") defaultMedataOperation_init
     = walk_below example_tree "VIR" ["SALAIRE"] defaultMedataOperation
         (reader "_credit") defaultMedataOperation_init.
Proof.
  split; [discriminate|].
  apply (proj1 (proj2 C5_carte_skips_the_word_at_index_1)). discriminate.
Defined.

(** C10. The root is looked up under the upper-cased first word, the
    skip is decided on the word as it is written: a first word that
    upper-cases to "CARTE" without being "CARTE" takes the root [CARTE]
    and the loop runs over the words from index 1 on; it is the call
    that "CARTE" makes with one more word put at index 1. *)
Theorem C10_skip_is_case_sensitive
    (classification : obj) (fnReadMetadata : value -> ref -> M ref) (metadata : ref)
    (first : string) (others : list string) (h : heap) :
  toUpperCase first = "CARTE" ->
  first <> "CARTE" ->
  _classification classification (first :: others) metadata fnReadMetadata h
    = walk_below classification "CARTE" others metadata fnReadMetadata h
  /\ forall skipped,
      _classification classification (first :: others) metadata fnReadMetadata h
      = _classification classification ("CARTE" :: skipped :: others) metadata
          fnReadMetadata h.
Proof.
  intros U N.
  assert (E : String.eqb first "CARTE" = false).
  { destruct (String.eqb first "CARTE") eqn:E; [|reflexivity].
    apply String.eqb_eq in E. contradiction. }
  split.
  - unfold _classification, walk_below. rewrite U, E. reflexivity.
  - intros skipped. unfold _classification. rewrite U, E. reflexivity.
Qed.

Lemma C10_skip_is_case_sensitive_witness :
  _classification example_tree ["carte"; "1234"; "RESTAURANT"] defaultMedataOperation
    (reader "_debit") defaultMedataOperation_init
  = walk_below example_tree "CARTE" ["1234"; "RESTAURANT"] defaultMedataOperation
      (reader "_debit") defaultMedataOperation_init.
Proof.
  apply (C10_skip_is_case_sensitive example_tree (reader "_debit")
           defaultMedataOperation "carte" ["1234"; "RESTAURANT"]
           defaultMedataOperation_init).
  - reflexivity.
  - discriminate.
Defined.

(** The lower-case spelling is matched against the child [1234], which
    the upper-case spelling skips. *)
Example carte_lower_case_matches_the_number :
  findMetadataForDebitOperation example_tree ["carte"; "1234"; "RESTAURANT"]
    defaultMedataOperation_init
  = (Ok (Object defaultMedataOperation),
     [ ("_id", VStr "7"); ("_proba", VNum 0%float); ("_type", VStr "number") ]).
Proof. reflexivity. Qed.

(** ** Results on the reading of a node *)

(** C6. At every matched node the fields of the node overwrite the
    accumulator first and the fields of its sub-record for the polarity
    overwrite it next, and the sub-record of the other polarity is not
    read: this holds of [_readSpecificMetaData] at one node and of both
    entry points along the whole walk, root and children, on any
    accumulator. With the root [VIR] of the example tree, credit
    [VIR SALAIRE] leaves the probability 90 on any accumulator, and
    debit [VIR SALAIRE] applies no override: it leaves the probability
    as it finds it. On a module just loaded that is 0, the defaults of
    the node alone; but the accumulator is the shared object, and after
    the credit call of the example the debit call of the same words
    returns the probability 90. *)
Theorem C6_polarity_fields_override_node_defaults :
  (forall (node : value) (typeOperation : string) (h : heap) (key : string),
      truthy node = true ->
      has_key h key = true ->
      fst (_readSpecificMetaData node typeOperation defaultMedataOperation h)
        = Ok defaultMedataOperation
      /\ own_prop (snd (_readSpecificMetaData node typeOperation
                          defaultMedataOperation h)) key
         = if truthy (prop (prop node typeOperation) key)
           then prop (prop node typeOperation) key
           else if truthy (prop node key) then prop node key
           else own_prop h key)
  /\ (forall (node node' : value) (typeOperation : string) (h : heap),
         truthy node = true ->
         truthy node' = true ->
         prop node typeOperation = prop node' typeOperation ->
         (forall key, has_key h key = true -> prop node key = prop node' key) ->
         _readSpecificMetaData node typeOperation defaultMedataOperation h
         = _readSpecificMetaData node' typeOperation defaultMedataOperation h)
  /\ (forall (classification : obj) (words : list string) (h : heap) (key : string),
         has_key h key = true ->
         own_prop (snd (findMetadataForCreditOperation classification words h)) key
         = fields_along "_credit" (visited_nodes classification words) key
             (own_prop h key)
         /\ own_prop (snd (findMetadataForDebitOperation classification words h)) key
            = fields_along "_debit" (visited_nodes classification words) key
                (own_prop h key))
  /\ (forall h : heap,
         has_key h "_proba" = true ->
         own_prop (snd (findMetadataForCreditOperation example_tree
                          ["VIR"; "SALAIRE"] h)) "_proba"
         = VNum 90%float)
  /\ (forall h : heap,
         has_key h "_proba" = true ->
         own_prop (snd (findMetadataForDebitOperation example_tree
                          ["VIR"; "SALAIRE"] h)) "_proba"
         = own_prop h "_proba")
  /\ findMetadataForCreditOperation example_tree ["VIR"; "SALAIRE"]
       defaultMedataOperation_init
     = (Ok (Object defaultMedataOperation),
        [ ("_id", VStr "5"); ("_proba", VNum 90%float); ("_type", VStr "none") ])
  /\ findMetadataForDebitOperation example_tree ["VIR"; "SALAIRE"]
       defaultMedataOperation_init
     = (Ok (Object defaultMedataOperation),
        [ ("_id", VStr "5"); ("_proba", VNum 0%float); ("_type", VStr "none") ])
  /\ findMetadataForDebitOperation example_tree ["VIR"; "SALAIRE"]
       (snd (findMetadataForCreditOperation example_tree ["VIR"; "SALAIRE"]
               defaultMedataOperation_init))
     = (Ok (Object defaultMedataOperation),
        [ ("_id", VStr "5"); ("_proba", VNum 90%float); ("_type", VStr "none") ]).
Proof.
  split; [|split; [|split; [|split; [|split; [|repeat split; reflexivity]]]]].
  - intros node typeOperation h key T K.
    rewrite (_readSpecificMetaData_ok node typeOperation h T). cbn [fst snd].
    split; [reflexivity|].
    rewrite own_prop_overwrite by (rewrite has_key_overwrite; exact K).
    rewrite (own_prop_overwrite node h key K). reflexivity.
  - intros node node' typeOperation h T T' S F.
    rewrite (_readSpecificMetaData_ok node typeOperation h T).
    rewrite (_readSpecificMetaData_ok node' typeOperation h T').
    rewrite S. do 2 f_equal.
    unfold overwrite. apply map_ext_in. intros kv Hin.
    rewrite (F (fst kv)); [reflexivity|].
    apply has_key_in, in_map, Hin.
  - intros classification words h key K. split.
    + exact (classification_field classification "_credit" words h key K).
    + exact (classification_field classification "_debit" words h key K).
  - intros h K.
    exact (classification_field example_tree "_credit" ["VIR"; "SALAIRE"] h
             "_proba" K).
  - intros h K.
    exact (classification_field example_tree "_debit" ["VIR"; "SALAIRE"] h
             "_proba" K).
Qed.

(** A walk through a root and a child, each with its own field and
    with both sub-records: debit leaves the probability of the [_debit]
    sub-record of the child, the deepest node. *)
Lemma C6_polarity_fields_witness :
  own_prop
    (snd (findMetadataForDebitOperation
            [ ("VIR",
               VObj [ ("_id", VStr "5"); ("_proba", VNum 10%float);
                      ("_credit", VObj [ ("_proba", VNum 90%float) ]);
                      ("_debit", VObj [ ("_proba", VNum 20%float) ]);
                      ("SALAIRE",
                       VObj [ ("_proba", VNum 50%float);
                              ("_credit", VObj [ ("_proba", VNum 95%float) ]);
                              ("_debit", VObj [ ("_proba", VNum 70%float) ]) ]) ]) ]
            ["VIR"; "SALAIRE"] defaultMedataOperation_init))
    "_proba"
  = VNum 70%float.
Proof.
  exact (proj2 (proj1 (proj2 (proj2 C6_polarity_fields_override_node_defaults))
                  [ ("VIR",
                     VObj [ ("_id", VStr "5"); ("_proba", VNum 10%float);
                            ("_credit", VObj [ ("_proba", VNum 90%float) ]);
                            ("_debit", VObj [ ("_proba", VNum 20%float) ]);
                            ("SALAIRE",
                             VObj [ ("_proba", VNum 50%float);
                                    ("_credit", VObj [ ("_proba", VNum 95%float) ]);
                                    ("_debit", VObj [ ("_proba", VNum 70%float) ]) ]) ]) ]
                  ["VIR"; "SALAIRE"] defaultMedataOperation_init "_proba" eq_refl)).
Defined.

(** C9. A field of a node that is falsy overwrites nothing, among the
    defaults of the node as in its sub-record: [_readDefaultMetaData]
    leaves a key as it was when the field of the node is falsy,
    [_readSpecificMetaData] leaves it as it was when the field is falsy
    in the node and in the sub-record, and a value that either of them
    changes is truthy afterwards. A node whose [_proba] is 0 leaves a
    probability of 90 at 90. *)
Theorem C9_falsy_fields_overwrite_nothing :
  (forall (node : value) (h : heap) (key : string),
      truthy (prop node key) = false ->
      own_prop (snd (_readDefaultMetaData node defaultMedataOperation h)) key
      = own_prop h key)
  /\ (forall (node : value) (typeOperation : string) (h : heap) (key : string),
         truthy node = true ->
         truthy (prop node key) = false ->
         truthy (prop (prop node typeOperation) key) = false ->
         own_prop (snd (_readSpecificMetaData node typeOperation
                          defaultMedataOperation h)) key
         = own_prop h key)
  /\ (forall (node : value) (typeOperation : string) (h : heap) (key : string),
         truthy node = true ->
         own_prop (snd (_readSpecificMetaData node typeOperation
                          defaultMedataOperation h)) key
         = own_prop h key
         \/ truthy (own_prop (snd (_readSpecificMetaData node typeOperation
                                     defaultMedataOperation h)) key) = true)
  /\ snd (_readSpecificMetaData
            (VObj [ ("_proba", VNum 0%float); ("_type", VStr "");
                    ("_debit", VObj [ ("_proba", VNum 0%float); ("_id", VNull) ]) ])
            "_debit" defaultMedataOperation
            [ ("_id", VStr "5"); ("_proba", VNum 90%float); ("_type", VStr "none") ])
     = [ ("_id", VStr "5"); ("_proba", VNum 90%float); ("_type", VStr "none") ].
Proof.
  split; [|split; [|split]].
  - intros node h key F. rewrite _readDefaultMetaData_heap.
    destruct (own_prop_overwrite_cases node h key) as [E | [_ T]]; [exact E|].
    rewrite F in T. discriminate.
  - intros node typeOperation h key T F S.
    rewrite (_readSpecificMetaData_ok node typeOperation h T). cbn [snd].
    destruct (own_prop_overwrite_cases (prop node typeOperation) (overwrite node h) key)
      as [E | [_ T']]; [|rewrite S in T'; discriminate].
    rewrite E.
    destruct (own_prop_overwrite_cases node h key) as [E' | [_ T']]; [exact E'|].
    rewrite F in T'. discriminate.
  - intros node typeOperation h key T.
    rewrite (_readSpecificMetaData_ok node typeOperation h T). cbn [snd].
    destruct (own_prop_overwrite_cases (prop node typeOperation) (overwrite node h) key)
      as [E | [E T']].
    + rewrite E.
      destruct (own_prop_overwrite_cases node h key) as [E' | [E' T']].
      * left. exact E'.
      * right. rewrite E'. exact T'.
    + right. rewrite E. exact T'.
  - reflexivity.
Qed.

Lemma C9_falsy_fields_witness :
  own_prop
    (snd (_readDefaultMetaData (VObj [ ("_proba", VNum 0%float) ])
            defaultMedataOperation
            [ ("_id", VStr "5"); ("_proba", VNum 90%float); ("_type", VStr "none") ]))
    "_proba"
  = own_prop
      [ ("_id", VStr "5"); ("_proba", VNum 90%float); ("_type", VStr "none") ]
      "_proba".
Proof.
  apply (proj1 C9_falsy_fields_overwrite_nothing
           (VObj [ ("_proba", VNum 0%float) ])
           [ ("_id", VStr "5"); ("_proba", VNum 90%float); ("_type", VStr "none") ]
           "_proba" eq_refl).
Defined.

(** ** Results on the amounts *)

(** With the flag [g] the cleaning steps give the decimal spelling that
    [parseFloat] is meant to receive. *)
Example cleaning_with_a_global_expression :
  obind (replaceAll "1 234,56 " {| source := is_space; flags := "g" |} "")
        (fun stripped => Ok (trim (replace stripped "," ".")))
  = Ok "1234.56".
Proof. reflexivity. Qed.

(** C2. [normalizeAmount] gives no number for "1 234,56 ": the regular
    expression handed to [replaceAll] has no flag [g], so the call
    throws a [TypeError] before the comma is replaced and before
    [parseFloat] is reached. *)
Theorem C2_normalizeAmount_throws_on_the_amount (parseFloat : string -> float) :
  normalizeAmount parseFloat "1 234,56 " = Throw TypeError.
Proof. reflexivity. Qed.

(** C4. [normalizeAmount] throws a [TypeError] on every string, "abc"
    among them, and returns no number, not-a-number included. *)
Theorem C4_normalizeAmount_throws_on_every_string
    (parseFloat : string -> float) (amount : string) :
  normalizeAmount parseFloat amount = Throw TypeError
  /\ normalizeAmount parseFloat "abc" = Throw TypeError.
Proof. split; reflexivity. Qed.

(** ** Results on the account types *)

(** The first class decides: an entry of the table gives its
    descriptor, and a class that is neither an entry nor a name
    inherited from [Object.prototype] gives the Unknown descriptor. *)
Lemma getAccountTypeFromCSS_first_class (cssClasses : string) :
  let first := hd "undefined" (split cssClasses " "%char) in
  (forall d, table_lookup AbbrToAccountType first = Some d ->
             getAccountTypeFromCSS cssClasses = Descriptor d)
  /\ (table_lookup AbbrToAccountType first = None ->
      existsb (String.eqb first) Object_prototype = false ->
      getAccountTypeFromCSS cssClasses = Descriptor AccountType.UNKNOWN).
Proof.
  intros first. unfold getAccountTypeFromCSS, AbbrToAccountType_get. fold first.
  split.
  - intros d H. rewrite H. reflexivity.
  - intros H P. rewrite H, P. reflexivity.
Qed.

Example getAccountTypeFromCSS_examples :
  getAccountTypeFromCSS "cco compte" = Descriptor AccountType.CHECKINGS
  /\ getAccountTypeFromCSS "pea" = Descriptor AccountType.MARKET
  /\ getAccountTypeFromCSS "xyz" = Descriptor AccountType.UNKNOWN.
Proof. repeat split; reflexivity. Qed.

(** C7. A first class that names a member of [Object.prototype] is
    found through the prototype of the table, and the member found,
    being truthy, is what the function returns: for "constructor" and
    for "toString compte" the result is the inherited function, not
    the Unknown descriptor. *)
Theorem C7_inherited_name_is_not_unknown :
  getAccountTypeFromCSS "constructor" = Inherited "constructor"
  /\ getAccountTypeFromCSS "toString compte" = Inherited "toString"
  /\ getAccountTypeFromCSS "constructor" <> Descriptor AccountType.UNKNOWN.
Proof. repeat split; try reflexivity. discriminate. Qed.

(** ** Results on the request errors *)

(** C8. [handleRequestErrors] throws the [Error] that carries
    [VENDOR_DOWN] exactly when the error is an instance of
    [RequestError] or of [StatusCodeError], and returns a promise
    rejected with the error it was given, the same object, exactly when
    it is an instance of neither. *)
Theorem C8_vendor_down_iff_transport_failure (err : thrown) :
  (snd (handleRequestErrors err) = Throws (Error VENDOR_DOWN)
   <-> instanceof err RequestError = true \/ instanceof err StatusCodeError = true)
  /\ (snd (handleRequestErrors err) = ReturnsRejected err
      <-> instanceof err RequestError = false /\ instanceof err StatusCodeError = false).
Proof.
  unfold handleRequestErrors.
  destruct (instanceof err RequestError), (instanceof err StatusCodeError);
    cbn [orb snd]; intuition congruence.
Qed.

Example handleRequestErrors_examples :
  handleRequestErrors (ErrorObject 1 [StatusCodeError; ErrorClass] "404")
  = ([("error", ErrorObject 1 [StatusCodeError; ErrorClass] "404")],
     Throws (Error "VENDOR_DOWN"))
  /\ handleRequestErrors (ErrorObject 2 [TransformError; ErrorClass] "transform")
     = ([], ReturnsRejected (ErrorObject 2 [TransformError; ErrorClass] "transform"))
  /\ handleRequestErrors (NotAnObject (VStr "LOGIN_FAILED"))
     = ([], ReturnsRejected (NotAnObject (VStr "LOGIN_FAILED"))).
Proof. repeat split; reflexivity. Qed.

(** ** Calling twice in a row *)

Lemma overwrite_patch (node : value) (h : heap) :
  overwrite node h = patch (truthy_fields node) h.
Proof.
  unfold overwrite, patch, truthy_fields. apply map_ext. intros kv.
  destruct (truthy (prop node (fst kv))); reflexivity.
Qed.

Lemma patch_patch (c1 c2 : string -> option value) (h : heap) :
  patch c2 (patch c1 h) = patch (patch_then c1 c2) h.
Proof.
  unfold patch, patch_then. rewrite map_map. apply map_ext. intros kv.
  destruct (c1 (fst kv)) as [v1|]; cbn [fst];
    destruct (c2 (fst kv)) as [v2|]; reflexivity.
Qed.

Lemma patch_idempotent (c : string -> option value) (h : heap) :
  patch c (patch c h) = patch c h.
Proof.
  rewrite patch_patch. unfold patch, patch_then. apply map_ext. intros kv.
  destruct (c (fst kv)); reflexivity.
Qed.

Lemma loop_run_patch (op : string) (words : list string) :
  forall node : value,
    exists (r : returned) (c : string -> option value),
      forall h : heap, loop_run op node words h = (r, patch c h).
Proof.
  induction words as [|word rest IH]; intros node.
  - exists Undefined, (fun _ => None). intros h. cbn [loop_run]. f_equal.
    unfold patch. symmetry. apply map_id.
  - cbn [loop_run].
    destruct (truthy (prop node (toUpperCase word))) eqn:C.
    + destruct (IH (prop node (toUpperCase word))) as [r [c Hc]].
      exists r.
      exists (patch_then
                (truthy_fields (prop node (toUpperCase word)))
                (patch_then
                   (truthy_fields (prop (prop node (toUpperCase word)) op)) c)).
      intros h. rewrite Hc, !overwrite_patch, !patch_patch. reflexivity.
    + exists (Object defaultMedataOperation), (fun _ => None). intros h. f_equal.
      unfold patch. symmetry. apply map_id.
Qed.

Lemma classification_run_patch (classification : obj) (op first : string)
    (others : list string) :
  exists (r : returned) (c : string -> option value),
    forall h : heap, classification_run classification op first others h = (r, patch c h).
Proof.
  unfold classification_run.
  destruct (truthy (own_prop classification (toUpperCase first))) eqn:R.
  - destruct (loop_run_patch op
                (slice (first :: others) (if String.eqb first "CARTE" then 2 else 1))
                (own_prop classification (toUpperCase first))) as [r [c Hc]].
    exists r.
    exists (patch_then
              (truthy_fields (own_prop classification (toUpperCase first)))
              (patch_then
                 (truthy_fields (prop (own_prop classification (toUpperCase first)) op))
                 c)).
    intros h. rewrite Hc, !overwrite_patch, !patch_patch. reflexivity.
  - exists (Object defaultMedataOperation), (fun _ => None). intros h. f_equal.
    unfold patch. symmetry. apply map_id.
Qed.

(** The same call made again at once finds the accumulator as it left
    it and changes nothing: what differs between two calls on the same
    words comes from the calls made in between, or before the first. *)
Lemma same_call_at_once (classification : obj) (words : list string) (h : heap) :
  words <> [] ->
  findMetadataForCreditOperation classification words
    (snd (findMetadataForCreditOperation classification words h))
  = findMetadataForCreditOperation classification words h
  /\ findMetadataForDebitOperation classification words
       (snd (findMetadataForDebitOperation classification words h))
     = findMetadataForDebitOperation classification words h.
Proof.
  intros N. destruct words as [|first others]; [contradiction|].
  entry_points_run. cbn [fst snd].
  destruct (classification_run_patch classification "_credit" first others)
    as [r1 [c1 H1]].
  destruct (classification_run_patch classification "_debit" first others)
    as [r2 [c2 H2]].
  repeat (rewrite ?H1, ?H2; cbn [fst snd]).
  rewrite !patch_idempotent. split; reflexivity.
Qed.

(** ** Further results on the classification entry points *)

Lemma map_fst_overwrite (node : value) (h : heap) :
  map fst (overwrite node h) = map fst h.
Proof.
  unfold overwrite. rewrite map_map. apply map_ext. intros kv.
  destruct (truthy (prop node (fst kv))); reflexivity.
Qed.

Lemma loop_run_keys (op : string) (words : list string) :
  forall (node : value) (h : heap),
    map fst (snd (loop_run op node words h)) = map fst h.
Proof.
  induction words as [|word rest IH]; intros node h; [reflexivity|].
  cbn [loop_run].
  destruct (truthy (prop node (toUpperCase word))); [|reflexivity].
  rewrite IH, !map_fst_overwrite. reflexivity.
Qed.

Lemma loop_run_returned (op op' : string) (words : list string) :
  forall (node : value) (h h' : heap),
    fst (loop_run op node words h) = fst (loop_run op' node words h').
Proof.
  induction words as [|word rest IH]; intros node h h'; [reflexivity|].
  cbn [loop_run].
  destruct (truthy (prop node (toUpperCase word))); [apply IH|reflexivity].
Qed.

(** X1. The entry points throw on the empty list of words and on no
    other: the exception is the [TypeError] of [words[0].toUpperCase()],
    and the accumulator is as it was. *)
Theorem X1_throws_exactly_on_no_words
    (classification : obj) (words : list string) (h : heap) (e : exn) :
  (fst (findMetadataForCreditOperation classification words h) = Throw e
   <-> words = [] /\ e = TypeError)
  /\ (fst (findMetadataForDebitOperation classification words h) = Throw e
      <-> words = [] /\ e = TypeError)
  /\ findMetadataForCreditOperation classification [] h = (Throw TypeError, h)
  /\ findMetadataForDebitOperation classification [] h = (Throw TypeError, h).
Proof.
  destruct words as [|first others].
  - cbn. split; [|split; [|split; reflexivity]].
    + split; [intros H; inversion H; split; reflexivity | intros [_ ->]; reflexivity].
    + split; [intros H; inversion H; split; reflexivity | intros [_ ->]; reflexivity].
  - split; [|split; [|split; reflexivity]].
    + entry_points_run. cbn [fst]. split; [discriminate | intros [H _]; discriminate].
    + entry_points_run. cbn [fst]. split; [discriminate | intros [H _]; discriminate].
Qed.

(** X2. On a list of words that is not empty, the value returned is the
    accumulator object exactly when some word finds no node, and
    [undefined] otherwise. *)
Theorem X2_returns_the_accumulator_iff_a_word_misses
    (classification : obj) (words : list string) (h : heap) :
  words <> [] ->
  (fst (findMetadataForCreditOperation classification words h)
     = Ok (Object defaultMedataOperation)
   <-> walk_consumes_all classification words = false)
  /\ (fst (findMetadataForDebitOperation classification words h)
        = Ok (Object defaultMedataOperation)
      <-> walk_consumes_all classification words = false).
Proof.
  intros N.
  destruct (walk_consumes_all classification words) eqn:W.
  - destruct words as [|first others]; [discriminate|].
    entry_points_run. cbn [fst].
    unfold walk_consumes_all in W. apply andb_prop in W. destruct W as [R P].
    unfold classification_run. rewrite R.
    rewrite !(loop_run_exhausted _ _ _ _ P).
    split; split; discriminate.
  - destruct (stopped_walk_returns_metadata classification words h N W) as [C D].
    rewrite C, D. split; split; reflexivity.
Qed.

Lemma X2_returns_the_accumulator_witness :
  fst (findMetadataForCreditOperation example_tree ["VIR"; "SALAIRE"]
         defaultMedataOperation_init)
    = Ok (Object defaultMedataOperation)
  <-> walk_consumes_all example_tree ["VIR"; "SALAIRE"] = false.
Proof.
  apply (X2_returns_the_accumulator_iff_a_word_misses example_tree
           ["VIR"; "SALAIRE"] defaultMedataOperation_init).
  discriminate.
Defined.

(** X3. Whether a call throws, returns [undefined] or returns the
    accumulator depends on the rule tree and on the words alone: not
    on the polarity, and not on what the accumulator holds. *)
Theorem X3_returned_value_ignores_polarity_and_accumulator
    (classification : obj) (words : list string) (h h' : heap) :
  fst (findMetadataForCreditOperation classification words h)
  = fst (findMetadataForDebitOperation classification words h')
  /\ fst (findMetadataForCreditOperation classification words h)
     = fst (findMetadataForCreditOperation classification words h')
  /\ fst (findMetadataForDebitOperation classification words h)
     = fst (findMetadataForDebitOperation classification words h').
Proof.
  destruct words as [|first others]; [repeat split; reflexivity|].
  entry_points_run. cbn [fst]. unfold classification_run.
  destruct (truthy (own_prop classification (toUpperCase first)));
    [|repeat split; reflexivity].
  repeat split; f_equal; apply loop_run_returned.
Qed.

(** X4. A call leaves the accumulator with the keys it had, in the
    order they had: no key is added and none is removed, whatever the
    tree and the words. *)
Theorem X4_keys_of_the_accumulator_are_kept
    (classification : obj) (words : list string) (h : heap) :
  map fst (snd (findMetadataForCreditOperation classification words h)) = map fst h
  /\ map fst (snd (findMetadataForDebitOperation classification words h)) = map fst h.
Proof.
  destruct words as [|first others]; [split; reflexivity|].
  entry_points_run. cbn [snd]. unfold classification_run.
  destruct (truthy (own_prop classification (toUpperCase first)));
    [|split; reflexivity].
  rewrite !loop_run_keys, !map_fst_overwrite. split; reflexivity.
Qed.

(** X5. Made again at once, any number of times, a call leaves the
    accumulator as the first call left it. *)
Theorem X5_repeated_call_is_stable
    (classification : obj) (words : list string) (h : heap) (n : nat) :
  Nat.iter n (fun a => snd (findMetadataForCreditOperation classification words a))
    (snd (findMetadataForCreditOperation classification words h))
  = snd (findMetadataForCreditOperation classification words h)
  /\ Nat.iter n (fun a => snd (findMetadataForDebitOperation classification words a))
       (snd (findMetadataForDebitOperation classification words h))
     = snd (findMetadataForDebitOperation classification words h).
Proof.
  destruct words as [|first others].
  - split; induction n as [|n IH]; [reflexivity | | reflexivity |];
      rewrite Nat.iter_succ, IH; reflexivity.
  - assert (N : first :: others <> []) by discriminate.
    destruct (same_call_at_once classification (first :: others) h N) as [C D].
    split; induction n as [|n IH]; [reflexivity | | reflexivity |];
      rewrite Nat.iter_succ, IH.
    + rewrite C. reflexivity.
    + rewrite D. reflexivity.
Qed.

Lemma upper_char_idempotent (c : ascii) :
  is_ascii_char c = true -> upper_char (upper_char c) = upper_char c.
Proof.
  destruct c as [b0 b1 b2 b3 b4 b5 b6 b7].
  destruct b7, b0, b1, b2, b3, b4, b5, b6; intros A; cbv in A;
    first [discriminate A | reflexivity].
Qed.

Lemma toUpperCase_idempotent (s : string) :
  is_ascii s = true -> toUpperCase (toUpperCase s) = toUpperCase s.
Proof.
  induction s as [|c s IH]; intros A; [reflexivity|].
  cbn [is_ascii] in A. apply andb_prop in A. destruct A as [Ac As].
  cbn [toUpperCase]. rewrite (upper_char_idempotent c Ac), (IH As). reflexivity.
Qed.

Lemma map_toUpperCase_idempotent (words : list string) :
  forallb is_ascii words = true ->
  map toUpperCase (map toUpperCase words) = map toUpperCase words.
Proof.
  induction words as [|w words IH]; intros A; [reflexivity|].
  cbn [forallb] in A. apply andb_prop in A. destruct A as [Aw As].
  cbn [map]. rewrite (toUpperCase_idempotent w Aw), (IH As). reflexivity.
Qed.

Lemma for_of_upper (fnReadMetadata : value -> ref -> M ref) (metadata : ref)
    (words : list string) :
  forall (words' : list string) (node : value) (h : heap),
    map toUpperCase words = map toUpperCase words' ->
    for_of fnReadMetadata metadata node words h
    = for_of fnReadMetadata metadata node words' h.
Proof.
  induction words as [|word rest IH]; intros [|word' rest'] node h E;
    try discriminate; [reflexivity|].
  cbn [map] in E. injection E as Ew Er.
  cbn [for_of]. rewrite Ew. unfold bind at 1 3, lift.
  destruct (get_prop node (toUpperCase word')) as [tree|e]; [|reflexivity].
  destruct (truthy tree); cbn [negb]; [|reflexivity].
  unfold bind at 1 2.
  destruct (fnReadMetadata tree metadata h) as [[r|e] h1]; [|reflexivity].
  apply IH, Er.
Qed.

Lemma skipn_map_upper (n : nat) (words words' : list string) :
  map toUpperCase words = map toUpperCase words' ->
  map toUpperCase (skipn n words) = map toUpperCase (skipn n words').
Proof. intros E. rewrite <- !skipn_map, E. reflexivity. Qed.

(** X6. Words made of ASCII characters are matched by their upper-case
    spelling: two lists of such words that are equal once upper-cased,
    and whose first words agree on being "CARTE" as written, are
    classified alike. So upper-casing such words beforehand changes
    nothing, unless the first word is spelt like "CARTE" in another
    case. *)
Theorem X6_words_count_by_their_upper_case :
  (forall classification fnReadMetadata metadata first first' others others' h,
      forallb is_ascii (first :: others) = true ->
      forallb is_ascii (first' :: others') = true ->
      toUpperCase first = toUpperCase first' ->
      String.eqb first "CARTE" = String.eqb first' "CARTE" ->
      map toUpperCase others = map toUpperCase others' ->
      _classification classification (first :: others) metadata fnReadMetadata h
      = _classification classification (first' :: others') metadata fnReadMetadata h)
  /\ (forall classification fnReadMetadata metadata first others h,
         forallb is_ascii (first :: others) = true ->
         (first = "CARTE" \/ toUpperCase first <> "CARTE") ->
         _classification classification (map toUpperCase (first :: others)) metadata
           fnReadMetadata h
         = _classification classification (first :: others) metadata fnReadMetadata h).
Proof.
  assert (G : forall classification fnReadMetadata metadata first first' others
                     others' h,
             toUpperCase first = toUpperCase first' ->
             String.eqb first "CARTE" = String.eqb first' "CARTE" ->
             map toUpperCase others = map toUpperCase others' ->
             _classification classification (first :: others) metadata fnReadMetadata h
             = _classification classification (first' :: others') metadata
                 fnReadMetadata h).
  { intros classification fnReadMetadata metadata first first' others others' h
           Ef Ec Eo.
    unfold _classification. rewrite Ef, Ec. unfold bind at 1 3, lift.
    destruct (get_prop (VObj classification) (toUpperCase first')) as [root|e];
      [|reflexivity].
    destruct (truthy root); cbn [negb]; [|reflexivity].
    unfold bind at 1 2.
    destruct (fnReadMetadata root metadata h) as [[r|e] h1]; [|reflexivity].
    apply for_of_upper. unfold slice.
    destruct (String.eqb first' "CARTE").
    - apply (skipn_map_upper 2 (first :: others) (first' :: others')).
      cbn [map]. rewrite Ef, Eo. reflexivity.
    - apply (skipn_map_upper 1 (first :: others) (first' :: others')).
      cbn [map]. rewrite Ef, Eo. reflexivity. }
  split.
  - intros classification fnReadMetadata metadata first first' others others' h
           _ _. apply G.
  - intros classification fnReadMetadata metadata first others h A C.
    cbn [forallb] in A. apply andb_prop in A. destruct A as [Af Ao].
    cbn [map]. apply G.
    + apply toUpperCase_idempotent, Af.
    + destruct C as [-> | C]; [reflexivity|].
      destruct (String.eqb (toUpperCase first) "CARTE") eqn:E1.
      * apply String.eqb_eq in E1. contradiction.
      * destruct (String.eqb first "CARTE") eqn:E2; [|reflexivity].
        apply String.eqb_eq in E2. subst first. exfalso. apply C. reflexivity.
    + apply map_toUpperCase_idempotent, Ao.
Qed.

Lemma X6_words_count_witness :
  _classification example_tree ["vir"; "Salaire"] defaultMedataOperation
    (reader "_credit") defaultMedataOperation_init
  = _classification example_tree ["VIR"; "SALAIRE"] defaultMedataOperation
      (reader "_credit") defaultMedataOperation_init.
Proof.
  apply (proj1 X6_words_count_by_their_upper_case); reflexivity.
Defined.

Lemma loop_run_after_a_miss (op : string) (words extra : list string) :
  forall (node : value) (h : heap),
    matches_path node words = false ->
    loop_run op node (words ++ extra) h = loop_run op node words h.
Proof.
  induction words as [|word rest IH]; intros node h P; [discriminate|].
  cbn [matches_path] in P. cbn [app loop_run].
  destruct (truthy (prop node (toUpperCase word))); [|reflexivity].
  apply IH. exact P.
Qed.

(** X7. The walk stops at the first word that finds no node: the words
    that follow it have no part in the result. When some word of a
    list misses, the list with any words put after it is classified as
    the list itself. *)
Theorem X7_words_after_a_miss_are_ignored
    (classification : obj) (words extra : list string) (h : heap) :
  words <> [] ->
  walk_consumes_all classification words = false ->
  findMetadataForCreditOperation classification (words ++ extra) h
  = findMetadataForCreditOperation classification words h
  /\ findMetadataForDebitOperation classification (words ++ extra) h
     = findMetadataForDebitOperation classification words h.
Proof.
  intros N W. destruct words as [|first others]; [contradiction|].
  cbn [app]. entry_points_run.
  unfold walk_consumes_all in W. unfold classification_run.
  destruct (truthy (own_prop classification (toUpperCase first)));
    [|split; reflexivity].
  cbn [andb] in W.
  assert (S : slice (first :: others ++ extra)
                (if String.eqb first "CARTE" then 2 else 1)
              = slice (first :: others) (if String.eqb first "CARTE" then 2 else 1)
                  ++ extra).
  { unfold slice. destruct (String.eqb first "CARTE"); [|reflexivity].
    destruct others as [|o os]; [discriminate|reflexivity]. }
  rewrite S, !(loop_run_after_a_miss _ _ _ _ _ W). split; reflexivity.
Qed.

Lemma X7_words_after_a_miss_witness :
  findMetadataForCreditOperation example_tree (["VIR"; "SALAIRE"] ++ ["CARTE"; "X"])
    defaultMedataOperation_init
  = findMetadataForCreditOperation example_tree ["VIR"; "SALAIRE"]
      defaultMedataOperation_init.
Proof.
  apply (X7_words_after_a_miss_are_ignored example_tree ["VIR"; "SALAIRE"]
           ["CARTE"; "X"] defaultMedataOperation_init).
  - discriminate.
  - reflexivity.
Defined.

Lemma has_key_keys (h h' : heap) (key : string) :
  map fst h = map fst h' -> has_key h key = has_key h' key.
Proof.
  unfold has_key. revert h'.
  induction h as [|kv h IH]; intros [|kv' h'] E; try discriminate; [reflexivity|].
  cbn [map] in E. injection E as Ek Eh. cbn [existsb]. rewrite Ek, (IH h' Eh).
  reflexivity.
Qed.

Lemma classification_run_keys (classification : obj) (op first : string)
    (others : list string) (h : heap) :
  map fst (snd (classification_run classification op first others h)) = map fst h.
Proof.
  unfold classification_run.
  destruct (truthy (own_prop classification (toUpperCase first))); [|reflexivity].
  rewrite loop_run_keys, !map_fst_overwrite. reflexivity.
Qed.

Lemma classification_no_key (classification : obj) (op : string)
    (words : list string) (h : heap) (key : string) :
  has_key h key = false ->
  own_prop (snd (_classification classification words defaultMedataOperation
                   (reader op) h)) key
  = own_prop h key.
Proof.
  intros K. destruct words as [|first others]; [reflexivity|].
  rewrite _classification_run. cbn [snd].
  rewrite !own_prop_no_key; [reflexivity | exact K |].
  rewrite <- K. apply has_key_keys, classification_run_keys.
Qed.

(** X8. The value that a call leaves under a key of the accumulator is
    the value it found there, passed through the nodes it visited from
    the root down: each node puts in its place the field of its
    sub-record for the polarity when that field is truthy, else its own
    field when truthy, else lets it through. *)
Theorem X8_field_left_by_a_call
    (classification : obj) (words : list string) (h : heap) (key : string) :
  has_key h key = true ->
  own_prop (snd (findMetadataForCreditOperation classification words h)) key
  = fields_along "_credit" (visited_nodes classification words) key (own_prop h key)
  /\ own_prop (snd (findMetadataForDebitOperation classification words h)) key
     = fields_along "_debit" (visited_nodes classification words) key (own_prop h key).
Proof.
  intros K. split.
  - exact (classification_field classification "_credit" words h key K).
  - exact (classification_field classification "_debit" words h key K).
Qed.

Lemma X8_field_left_by_a_call_witness :
  own_prop (snd (findMetadataForCreditOperation example_tree
                   ["CARTE"; "1234"; "RESTAURANT"] defaultMedataOperation_init))
    "_id"
  = fields_along "_credit"
      (visited_nodes example_tree ["CARTE"; "1234"; "RESTAURANT"]) "_id"
      (own_prop defaultMedataOperation_init "_id").
Proof.
  apply (X8_field_left_by_a_call example_tree ["CARTE"; "1234"; "RESTAURANT"]
           defaultMedataOperation_init "_id").
  reflexivity.
Defined.

Lemma fields_along_last (op : string) (key : string) (nodes : list value) :
  forall (last held : value),
    fields_along op (nodes ++ [last]) key held
    = field_read op last key (fields_along op nodes key held).
Proof.
  induction nodes as [|node rest IH]; intros last held; [reflexivity|].
  cbn [app fields_along]. apply IH.
Qed.

Lemma fields_along_none (op : string) (key : string) (nodes : list value) :
  forall held : value,
    (forall node, In node nodes ->
                  truthy (prop node key) = false
                  /\ truthy (prop (prop node op) key) = false) ->
    fields_along op nodes key held = held.
Proof.
  induction nodes as [|node rest IH]; intros held F; [reflexivity|].
  cbn [fields_along]. rewrite IH.
  - unfold field_read. destruct (F node (or_introl eq_refl)) as [A B].
    rewrite A, B. reflexivity.
  - intros n Hin. apply F. right. exact Hin.
Qed.

(** X9. The deepest node wins: when the last node visited has a truthy
    field under a key of the accumulator, in its sub-record for the
    polarity or else among its own fields, that field is the value
    left, whatever the nodes above it and the accumulator held. And a
    key for which no visited node has a truthy field keeps its
    value. *)
Theorem X9_deepest_node_wins :
  (forall classification words nodes last h key,
      visited_nodes classification words = nodes ++ [last] ->
      has_key h key = true ->
      truthy (field_read "_credit" last key VUndefined) = true ->
      own_prop (snd (findMetadataForCreditOperation classification words h)) key
      = field_read "_credit" last key VUndefined)
  /\ (forall classification words nodes last h key,
         visited_nodes classification words = nodes ++ [last] ->
         has_key h key = true ->
         truthy (field_read "_debit" last key VUndefined) = true ->
         own_prop (snd (findMetadataForDebitOperation classification words h)) key
         = field_read "_debit" last key VUndefined)
  /\ (forall classification words h key,
         (forall node, In node (visited_nodes classification words) ->
                       truthy (prop node key) = false
                       /\ truthy (prop (prop node "_credit") key) = false) ->
         own_prop (snd (findMetadataForCreditOperation classification words h)) key
         = own_prop h key)
  /\ (forall classification words h key,
         (forall node, In node (visited_nodes classification words) ->
                       truthy (prop node key) = false
                       /\ truthy (prop (prop node "_debit") key) = false) ->
         own_prop (snd (findMetadataForDebitOperation classification words h)) key
         = own_prop h key).
Proof.
  assert (L : forall op last key held,
             truthy (field_read op last key VUndefined) = true ->
             field_read op last key held = field_read op last key VUndefined).
  { intros op last key held. unfold field_read.
    destruct (truthy (prop (prop last op) key)); [reflexivity|].
    destruct (truthy (prop last key)); [reflexivity|discriminate]. }
  split; [|split; [|split]].
  - intros classification words nodes last h key V K T.
    change (findMetadataForCreditOperation classification words)
      with (_classification classification words defaultMedataOperation
              (reader "_credit")).
    rewrite (classification_field _ _ _ _ _ K), V, fields_along_last. apply L, T.
  - intros classification words nodes last h key V K T.
    change (findMetadataForDebitOperation classification words)
      with (_classification classification words defaultMedataOperation
              (reader "_debit")).
    rewrite (classification_field _ _ _ _ _ K), V, fields_along_last. apply L, T.
  - intros classification words h key F.
    change (findMetadataForCreditOperation classification words)
      with (_classification classification words defaultMedataOperation
              (reader "_credit")).
    destruct (has_key h key) eqn:K.
    + rewrite (classification_field _ _ _ _ _ K). apply fields_along_none, F.
    + apply classification_no_key, K.
  - intros classification words h key F.
    change (findMetadataForDebitOperation classification words)
      with (_classification classification words defaultMedataOperation
              (reader "_debit")).
    destruct (has_key h key) eqn:K.
    + rewrite (classification_field _ _ _ _ _ K). apply fields_along_none, F.
    + apply classification_no_key, K.
Qed.

Lemma X9_deepest_node_wins_witness :
  own_prop (snd (findMetadataForCreditOperation example_tree
                   ["CARTE"; "1234"; "RESTAURANT"]
                   [ ("_id", VStr "5"); ("_proba", VNum 90%float);
                     ("_type", VStr "none") ]))
    "_proba"
  = VNum 80%float.
Proof.
  apply (proj1 X9_deepest_node_wins example_tree ["CARTE"; "1234"; "RESTAURANT"]
           [ VObj [ ("_id", VStr "1");
                    ("1234", VObj [ ("_id", VStr "7"); ("_type", VStr "number") ]);
                    ("RESTAURANT", VObj [ ("_id", VStr "3");
                                          ("_proba", VNum 80%float) ]) ] ]
           (VObj [ ("_id", VStr "3"); ("_proba", VNum 80%float) ])
           [ ("_id", VStr "5"); ("_proba", VNum 90%float); ("_type", VStr "none") ]
           "_proba"); reflexivity.
Defined.

Lemma loop_run_without_sub_records (op op' : string) (words : list string) :
  forall (node : value) (h : heap),
    (forall n, In n (path_nodes node words) ->
               truthy (prop n op) = false /\ truthy (prop n op') = false) ->
    loop_run op node words h = loop_run op' node words h.
Proof.
  induction words as [|word rest IH]; intros node h F; [reflexivity|].
  cbn [loop_run path_nodes] in *.
  destruct (truthy (prop node (toUpperCase word))); [|reflexivity].
  destruct (F _ (or_introl eq_refl)) as [A B].
  rewrite (overwrite_falsy _ _ A), (overwrite_falsy _ _ B).
  apply IH. intros n Hin. apply F. right. exact Hin.
Qed.

(** X10. The polarity counts through the sub-records alone: when no
    node visited has a truthy [_credit] or [_debit], the credit and the
    debit classification of the words return the same value and leave
    the same accumulator. *)
Theorem X10_polarity_counts_through_sub_records_only
    (classification : obj) (words : list string) (h : heap) :
  (forall node, In node (visited_nodes classification words) ->
                truthy (prop node "_credit") = false
                /\ truthy (prop node "_debit") = false) ->
  findMetadataForCreditOperation classification words h
  = findMetadataForDebitOperation classification words h.
Proof.
  intros F. destruct words as [|first others]; [reflexivity|].
  entry_points_run. unfold visited_nodes in F. unfold classification_run.
  destruct (truthy (own_prop classification (toUpperCase first)));
    [|reflexivity].
  destruct (F _ (or_introl eq_refl)) as [A B].
  rewrite (overwrite_falsy _ _ A), (overwrite_falsy _ _ B).
  rewrite (loop_run_without_sub_records "_credit" "_debit"); [reflexivity|].
  intros n Hin. apply F. right. exact Hin.
Qed.

Lemma X10_polarity_witness :
  findMetadataForCreditOperation example_tree ["CARTE"; "1234"; "RESTAURANT"]
    defaultMedataOperation_init
  = findMetadataForDebitOperation example_tree ["CARTE"; "1234"; "RESTAURANT"]
      defaultMedataOperation_init.
Proof.
  apply (X10_polarity_counts_through_sub_records_only example_tree
           ["CARTE"; "1234"; "RESTAURANT"] defaultMedataOperation_init).
  intros node Hin. cbn in Hin.
  destruct Hin as [<- | [<- | []]]; split; reflexivity.
Defined.

(** ** Further results on the reading of a node *)

(** X11. [_readSpecificMetaData] throws on the nodes [undefined] and
    [null], a [TypeError] that leaves the accumulator as it was, and on
    no other: on any other node it returns the accumulator, overwritten
    by the truthy fields of the node and then by those of its
    sub-record. A falsy node that is not [null] changes nothing. *)
Theorem X11_readSpecificMetaData_throws_on_null_only
    (node : value) (typeOperation : string) (h : heap) :
  _readSpecificMetaData node typeOperation defaultMedataOperation h
  = match node with
    | VUndefined | VNull => (Throw TypeError, h)
    | _ => (Ok defaultMedataOperation,
            overwrite (prop node typeOperation) (overwrite node h))
    end.
Proof.
  assert (N : forall t, (forall k, get_prop t k = Throw TypeError) ->
                        _readSpecificMetaData t typeOperation defaultMedataOperation h
                        = (Throw TypeError, h)).
  { intros t G. unfold _readSpecificMetaData, bind at 1.
    unfold _readDefaultMetaData, bind at 1, keys.
    destruct h as [|[k v] h'].
    - cbn [map forEach]. unfold ret, bind at 1, lift. rewrite G. reflexivity.
    - cbn [map forEach fst]. unfold bind at 1 2, lift. rewrite G. reflexivity. }
  assert (R : forall t, (forall k, get_prop t k = Ok (prop t k)) ->
                        _readSpecificMetaData t typeOperation defaultMedataOperation h
                        = (Ok defaultMedataOperation,
                           overwrite (prop t typeOperation) (overwrite t h))).
  { intros t G. destruct (truthy t) eqn:T.
    - apply _readSpecificMetaData_ok, T.
    - unfold _readSpecificMetaData, bind at 1.
      rewrite (_readDefaultMetaData_readable t h G).
      unfold bind at 1, lift at 1. rewrite G.
      rewrite (prop_of_falsy t typeOperation T). cbn [truthy].
      rewrite (overwrite_falsy VUndefined) by reflexivity. reflexivity. }
  destruct node; try (apply N; intros k; reflexivity);
    apply R; intros k; reflexivity.
Qed.

(** ** Further results on the account types *)

Lemma table_lookup_range (key : string) (d : AccountTypeDescriptor) :
  table_lookup AbbrToAccountType key = Some d ->
  In d [ AccountType.CHECKINGS; AccountType.SAVINGS; AccountType.MARKET;
         AccountType.LIFEINSURANCE ].
Proof.
  unfold AbbrToAccountType. cbn [table_lookup]. intros H.
  repeat match type of H with
         | (if ?b then _ else _) = _ =>
             destruct b; [injection H as <-; cbn; tauto|]
         end.
  discriminate.
Qed.

Lemma existsb_eqb_In (key : string) (names : list string) :
  existsb (String.eqb key) names = true <-> In key names.
Proof.
  rewrite existsb_exists. split.
  - intros [x [Hin E]]. apply String.eqb_eq in E. subst x. exact Hin.
  - intros Hin. exists key. split; [exact Hin | apply String.eqb_refl].
Qed.

(** X12. [getAccountTypeFromCSS] never returns [undefined] and never
    the CreditCard descriptor: a descriptor that it returns is Unknown,
    Checkings, Savings, Market or LifeInsurance, and carries a balance
    recipe unless it is Unknown. *)
Theorem X12_descriptors_that_are_returned (cssClasses : string) :
  getAccountTypeFromCSS cssClasses <> Missing
  /\ getAccountTypeFromCSS cssClasses <> Descriptor AccountType.CREDITCARD
  /\ forall d,
      getAccountTypeFromCSS cssClasses = Descriptor d ->
      In d [ AccountType.UNKNOWN; AccountType.CHECKINGS; AccountType.SAVINGS;
             AccountType.MARKET; AccountType.LIFEINSURANCE ]
      /\ (scrape4Balance d = None <-> d = AccountType.UNKNOWN).
Proof.
  assert (R : forall d, getAccountTypeFromCSS cssClasses = Descriptor d ->
                        In d [ AccountType.UNKNOWN; AccountType.CHECKINGS;
                               AccountType.SAVINGS; AccountType.MARKET;
                               AccountType.LIFEINSURANCE ]).
  { intros d. unfold getAccountTypeFromCSS, AbbrToAccountType_get.
    destruct (table_lookup AbbrToAccountType
                (hd "undefined" (split cssClasses " "%char))) as [d'|] eqn:T.
    - cbn [member_or]. intros H. injection H as <-. right.
      apply (table_lookup_range _ _ T).
    - destruct (existsb _ Object_prototype); cbn [member_or]; intros H;
        [discriminate|]. injection H as <-. left. reflexivity. }
  split; [|split].
  - unfold getAccountTypeFromCSS, AbbrToAccountType_get.
    destruct (table_lookup AbbrToAccountType _); [discriminate|].
    destruct (existsb _ Object_prototype); discriminate.
  - intros H. apply R in H. cbn in H.
    repeat (destruct H as [H | H]; [discriminate|]). exact H.
  - intros d H. split; [apply R, H|].
    apply R in H. cbn in H.
    repeat (destruct H as [<- | H];
            [split; intros E; try reflexivity; discriminate|]).
    contradiction.
Qed.

Lemma split_not_nil (s : string) (separator : ascii) :
  split s separator <> [].
Proof.
  destruct s as [|c s]; cbn [split]; [discriminate|].
  destruct (Ascii.eqb c separator); [discriminate|].
  destruct (split s separator); discriminate.
Qed.

Lemma split_first_class (first rest : string) :
  has_char " "%char first = false ->
  hd "undefined" (split (first ++ String " "%char rest) " "%char) = first
  /\ hd "undefined" (split first " "%char) = first.
Proof.
  induction first as [|c first IH]; intros H; [split; reflexivity|].
  cbn [has_char] in H. apply orb_false_elim in H. destruct H as [Hc Hs].
  rewrite Ascii.eqb_sym in Hc. destruct (IH Hs) as [A B].
  cbn [append split]. rewrite Hc. split.
  - pose proof (split_not_nil (first ++ String " "%char rest) " "%char) as N.
    destruct (split (first ++ String " "%char rest) " "%char); [contradiction|].
    cbn [hd] in *. rewrite A. reflexivity.
  - pose proof (split_not_nil first " "%char) as N.
    destruct (split first " "%char); [contradiction|].
    cbn [hd] in *. rewrite B. reflexivity.
Qed.

(** X13. The class before the first space decides alone: what follows
    the first space has no part in the result. A string that starts
    with a space has the empty class for first class, and gives the
    Unknown descriptor. *)
Theorem X13_only_the_first_class_counts :
  (forall first rest : string,
      has_char " "%char first = false ->
      getAccountTypeFromCSS (first ++ String " "%char rest)
      = getAccountTypeFromCSS first)
  /\ (forall rest : string,
         getAccountTypeFromCSS (String " "%char rest)
         = Descriptor AccountType.UNKNOWN)
  /\ getAccountTypeFromCSS "" = Descriptor AccountType.UNKNOWN.
Proof.
  split; [|split; reflexivity].
  intros first rest H. unfold getAccountTypeFromCSS. cbv zeta.
  destruct (split_first_class first rest H) as [A B]. rewrite A, B. reflexivity.
Qed.

Lemma X13_only_the_first_class_witness :
  getAccountTypeFromCSS ("cco" ++ String " "%char "compte")
  = getAccountTypeFromCSS "cco".
Proof.
  apply (proj1 X13_only_the_first_class_counts "cco" "compte"). reflexivity.
Defined.

(** X14. What is returned is a member inherited from [Object.prototype]
    exactly when the first class is one of the twelve names of that
    prototype, and the member is then the one of that name. *)
Theorem X14_inherited_member_iff_prototype_name (cssClasses name : string) :
  getAccountTypeFromCSS cssClasses = Inherited name
  <-> hd "undefined" (split cssClasses " "%char) = name /\ In name Object_prototype.
Proof.
  unfold getAccountTypeFromCSS, AbbrToAccountType_get. cbv zeta.
  set (first := hd "undefined" (split cssClasses " "%char)).
  destruct (table_lookup AbbrToAccountType first) as [d|] eqn:T.
  - cbn [member_or]. split; [discriminate|].
    intros [E Hin]. exfalso. rewrite E in T. clear E.
    cbn in Hin.
    repeat (destruct Hin as [<- | Hin]; [discriminate T|]). exact Hin.
  - destruct (existsb (String.eqb first) Object_prototype) eqn:P; cbn [member_or].
    + apply existsb_eqb_In in P. split.
      * intros H. injection H as <-. split; [reflexivity | exact P].
      * intros [<- _]. reflexivity.
    + split; [discriminate|].
      intros [<- Hin]. apply existsb_eqb_In in Hin. rewrite Hin in P. discriminate.
Qed.

(** ** Further results on the request errors *)

(** X15. [handleRequestErrors] hands the error to [log], once and at
    the level [error], exactly when it throws; an error that it passes
    through is not logged. A rejected value that is not an object is
    always passed through. *)
Theorem X15_logged_exactly_when_translated (err : thrown) :
  (fst (handleRequestErrors err) = [("error", err)]
   <-> snd (handleRequestErrors err) = Throws (Error VENDOR_DOWN))
  /\ (fst (handleRequestErrors err) = []
      <-> snd (handleRequestErrors err) = ReturnsRejected err)
  /\ forall v : value,
      handleRequestErrors (NotAnObject v) = ([], ReturnsRejected (NotAnObject v)).
Proof.
  unfold handleRequestErrors.
  split; [|split; [|reflexivity]];
    destruct (instanceof err RequestError || instanceof err StatusCodeError);
    cbn [fst snd]; split; intros H; try reflexivity; discriminate.
Qed.

(** ** A sequence of calls *)

Lemma field_read_truthy (op : string) (node : value) (key : string) (held : value) :
  truthy held = true -> truthy (field_read op node key held) = true.
Proof.
  intros T. unfold field_read.
  destruct (truthy (prop (prop node op) key)) eqn:A; [exact A|].
  destruct (truthy (prop node key)) eqn:B; [exact B | exact T].
Qed.

Lemma fields_along_truthy (op : string) (key : string) (nodes : list value) :
  forall held : value,
    truthy held = true -> truthy (fields_along op nodes key held) = true.
Proof.
  induction nodes as [|node rest IH]; intros held T; [exact T|].
  cbn [fields_along]. apply IH, field_read_truthy, T.
Qed.

Lemma classification_keeps_truthy (classification : obj) (op : string)
    (words : list string) (h : heap) (key : string) :
  truthy (own_prop h key) = true ->
  truthy (own_prop (snd (_classification classification words defaultMedataOperation
                           (reader op) h)) key) = true.
Proof.
  intros T. destruct (has_key h key) eqn:K.
  - rewrite (classification_field _ _ _ _ _ K). apply fields_along_truthy, T.
  - rewrite (own_prop_no_key h key K) in T. discriminate.
Qed.

(** X16. A field of the accumulator that is truthy stays truthy through
    any sequence of credit and debit classifications on the module: a
    probability that some call has raised above 0 is never back at 0,
    and the category is never back at an empty or null value, for as
    long as the module lives. *)
Theorem X16_truthy_field_stays_truthy
    (classification : obj) (calls : list (bool * list string)) (h : heap)
    (key : string) :
  truthy (own_prop h key) = true ->
  truthy (own_prop (after_calls classification calls h) key) = true.
Proof.
  revert h. induction calls as [|[credit words] rest IH]; intros h T; [exact T|].
  cbn [after_calls]. apply IH. destruct credit.
  - exact (classification_keeps_truthy classification "_credit" words h key T).
  - exact (classification_keeps_truthy classification "_debit" words h key T).
Qed.

Lemma X16_truthy_field_witness :
  truthy (own_prop
            (after_calls example_tree
               [ (false, ["XYZ"]); (true, ["CARTE"; "1234"; "RESTAURANT"]);
                 (false, ["VIR"]) ]
               (snd (findMetadataForCreditOperation example_tree ["VIR"; "SALAIRE"]
                       defaultMedataOperation_init)))
            "_proba")
  = true.
Proof.
  apply (X16_truthy_field_stays_truthy example_tree
           [ (false, ["XYZ"]); (true, ["CARTE"; "1234"; "RESTAURANT"]);
             (false, ["VIR"]) ]
           (snd (findMetadataForCreditOperation example_tree ["VIR"; "SALAIRE"]
                   defaultMedataOperation_init))
           "_proba").
  reflexivity.
Defined.
